(** * Mem0 server: the HTTP endpoint layer of [mem0_server.py], the request
    schemas of [app/models/schemas.py] and the settings loader of
    [app/config/settings.py], as a shallow embedding.

    Python values are an inductive type, the external memory library is an
    oracle over the history of calls made to it, and a handler is a
    computation in a small state-and-exception monad whose state is that
    history.  Logging is not modelled, except that the arguments of a log
    line are evaluated where their evaluation can raise. *)

From Stdlib Require Import String Ascii List ZArith Bool Arith Lia.
From Stdlib Require Import SpecFloat DecimalString.
Import ListNotations.
Local Open Scope string_scope.
Local Open Scope list_scope.

Set Implicit Arguments.
Set Warnings "-register-all".

(** ** Python values *)

(** The values that cross the boundary with the memory library and with the
    JSON layer.  A [dict] is an association list in insertion order with
    string keys; an object is its class name and its attributes.  A float is
    an IEEE-754 value, a character of a [str] is an [ascii]. *)
Inductive PyVal : Type :=
| PyNone
| PyBool (b : bool)
| PyInt (n : Z)
| PyFloat (x : spec_float)
| PyStr (s : string)
| PyList (items : list PyVal)
| PyDict (entries : list (string * PyVal))
| PyObj (cls : string) (attrs : list (string * PyVal)).

Definition dict := list (string * PyVal).

(** The float literals [0.0] and [1.0]. *)
Definition float_0_0 : spec_float := S754_zero false.
Definition float_1_0 : spec_float := S754_finite false 4503599627370496 (-52).

Module Py.

(** [key in d] *)
Fixpoint contains (d : dict) (key : string) : bool :=
  match d with
  | [] => false
  | (k, _) :: rest => if String.eqb k key then true else contains rest key
  end.

(** [d.get(key, default)] *)
Fixpoint get (d : dict) (key : string) (default : PyVal) : PyVal :=
  match d with
  | [] => default
  | (k, v) :: rest => if String.eqb k key then v else get rest key default
  end.

(** [isinstance(v, str)] *)
Definition is_str (v : PyVal) : bool :=
  match v with PyStr _ => true | _ => false end.

(** [hasattr(v, name)] and [getattr(v, name, default)], for the attribute
    names the handlers ask for ([memory], [score], [metadata], [id]): no
    built-in type has an attribute of one of these names, so only an
    object's own attributes answer. *)
Definition hasattr (v : PyVal) (name : string) : bool :=
  match v with
  | PyObj _ attrs => contains attrs name
  | _ => false
  end.

Definition getattr (v : PyVal) (name : string) (default : PyVal) : PyVal :=
  match v with
  | PyObj _ attrs => get attrs name default
  | _ => default
  end.

(** [bool(v)], the test of [if v:] and [if not v:]. *)
Definition truthy (v : PyVal) : bool :=
  match v with
  | PyNone => false
  | PyBool b => b
  | PyInt n => negb (Z.eqb n 0)
  | PyFloat (S754_zero _) => false
  | PyFloat _ => true
  | PyStr s => negb (String.eqb s EmptyString)
  | PyList items => match items with [] => false | _ => true end
  | PyDict entries => match entries with [] => false | _ => true end
  | PyObj _ _ => true
  end.

(** [type(v).__name__] *)
Definition type_name (v : PyVal) : string :=
  match v with
  | PyNone => "NoneType"
  | PyBool _ => "bool"
  | PyInt _ => "int"
  | PyFloat _ => "float"
  | PyStr _ => "str"
  | PyList _ => "list"
  | PyDict _ => "dict"
  | PyObj cls _ => cls
  end.

(** [str(n)] for an integer. *)
Definition str_of_Z (n : Z) : string := NilZero.string_of_int (Z.to_int n).
Definition str_of_nat (n : nat) : string := str_of_Z (Z.of_nat n).

(** The characters of a string, each a string of length one. *)
Fixpoint chars (s : string) : list PyVal :=
  match s with
  | EmptyString => []
  | String c rest => PyStr (String c EmptyString) :: chars rest
  end.

End Py.

(** ** Exceptions and outcomes *)

(** An exception is an ordinary one (its class and [str(e)]), FastAPI's
    [HTTPException], or the validation error FastAPI raises when a request
    body does not fit the endpoint's model. *)
Inductive PyExc : Type :=
| Exception (cls : string) (msg : string)
| HTTPException (status_code : Z) (detail : string)
| RequestValidationError (field : string).

(** [str(e)] *)
Definition str_exc (e : PyExc) : string :=
  match e with
  | Exception _ msg => msg
  | HTTPException status_code detail =>
      Py.str_of_Z status_code ++ ": " ++ detail
  | RequestValidationError field => field
  end.

Inductive Outcome (A : Type) : Type :=
| Returns (a : A)
| Raises (e : PyExc).
Arguments Returns {A} a.
Arguments Raises {A} e.

Definition TypeError (msg : string) : PyExc := Exception "TypeError" msg.

Module PyOps.

(** [len(v)] *)
Definition len (v : PyVal) : Outcome nat :=
  match v with
  | PyStr s => Returns (String.length s)
  | PyList items => Returns (List.length items)
  | PyDict entries => Returns (List.length entries)
  | _ => Raises (TypeError ("object of type '" ++ Py.type_name v
                            ++ "' has no len()"))
  end.

(** The elements [for x in v] runs through: the items of a list, the keys
    of a dict, the characters of a string. *)
Definition iter (v : PyVal) : Outcome (list PyVal) :=
  match v with
  | PyStr s => Returns (Py.chars s)
  | PyList items => Returns items
  | PyDict entries => Returns (map (fun kv => PyStr (fst kv)) entries)
  | _ => Raises (TypeError ("'" ++ Py.type_name v
                            ++ "' object is not iterable"))
  end.

End PyOps.

(** ** The external memory library *)

(** The four methods the handlers call on [memory_instance], with their
    arguments as passed. *)
Inductive Call : Type :=
| CallAdd (content : string) (user_id : string) (metadata : dict)
| CallSearch (query : string) (user_id : string) (limit : Z)
| CallGetAll (user_id : string) (limit : option Z)
| CallDelete (memory_id : PyVal).

(** The library instance: what a call returns or raises, given the calls made
    before it. *)
Definition Memory : Type := list Call -> Call -> Outcome PyVal.

(** ** The handler monad: the history of library calls, and exceptions *)

Definition Handler (A : Type) : Type := list Call -> Outcome A * list Call.

Definition ret {A} (a : A) : Handler A := fun h => (Returns a, h).

Definition raise {A} (e : PyExc) : Handler A := fun h => (Raises e, h).

Definition bind {A B} (m : Handler A) (k : A -> Handler B) : Handler B :=
  fun h =>
    match m h with
    | (Returns a, h') => k a h'
    | (Raises e, h') => (Raises e, h')
    end.

(** [try: body  except Exception as e: handler e] *)
Definition try_except {A} (body : Handler A) (handler : PyExc -> Handler A)
  : Handler A :=
  fun h =>
    match body h with
    | (Returns a, h') => (Returns a, h')
    | (Raises e, h') => handler e h'
    end.

(** A pure evaluation that may raise. *)
Definition lift {A} (o : Outcome A) : Handler A := fun h => (o, h).

(** One method call on the library instance. *)
Definition invoke (inst : Memory) (c : Call) : Handler PyVal :=
  fun h => (inst h c, h ++ [c]).

Declare Scope handler_scope.
Delimit Scope handler_scope with handler.
Notation "x <- m ;; k" := (bind m (fun x => k))
  (at level 61, m at next level, right associativity) : handler_scope.
Notation "m ;;; k" := (bind m (fun _ => k))
  (at level 61, right associativity) : handler_scope.
Local Open Scope handler_scope.

(** ** Pydantic *)

(** What pydantic accepts at a declared field type, and the value it stores.
    The repository declares the field types and the length and range bounds;
    the coercions themselves are pydantic's and stay a parameter of the
    development.  [validation_error] is the [ValidationError] raised when a
    model is constructed from values that do not fit. *)
Record Pydantic : Type := {
  as_str : PyVal -> option string;
  as_int : PyVal -> option Z;
  as_float : PyVal -> option spec_float;
  as_opt_dict : PyVal -> option (option dict);
  as_dict_list : PyVal -> option (list dict);
  validation_error : string -> list PyVal -> PyExc
}.

(** The part of pydantic's behaviour that the results below rely on: a value
    that already has the declared type is accepted unchanged. *)
Record PydanticLaws (P : Pydantic) : Prop := {
  as_str_str : forall s, as_str P (PyStr s) = Some s;
  as_int_int : forall n, as_int P (PyInt n) = Some n;
  as_float_float : forall x, as_float P (PyFloat x) = Some x;
  as_opt_dict_none : as_opt_dict P PyNone = Some None;
  as_opt_dict_dict : forall d, as_opt_dict P (PyDict d) = Some (Some d)
}.

(** Pydantic in strict mode: only a value of the declared type is accepted. *)
Definition pydantic_strict : Pydantic := {|
  as_str := fun v => match v with PyStr s => Some s | _ => None end;
  as_int := fun v => match v with PyInt n => Some n | _ => None end;
  as_float := fun v => match v with PyFloat x => Some x | _ => None end;
  as_opt_dict := fun v =>
    match v with
    | PyNone => Some None
    | PyDict d => Some (Some d)
    | _ => None
    end;
  as_dict_list := fun v =>
    match v with
    | PyList items =>
        fold_right
          (fun item acc =>
             match item, acc with
             | PyDict d, Some ds => Some (d :: ds)
             | _, _ => None
             end)
          (Some []) items
    | _ => None
    end;
  validation_error := fun model _ =>
    Exception "ValidationError" ("validation error for " ++ model)
|}.

(** The error of a request body that does not fit the endpoint's model; of
    each error only its location is kept. *)
Definition body_error (field : string) : PyExc := RequestValidationError field.

Section Fields.

Variable P : Pydantic.

(** [name: str = Field(..., min_length=lo, max_length=hi)] read from the
    JSON object [body]; [hi = None] when the field declares no
    [max_length]. *)
Definition required_str (body : dict) (name : string)
           (min_length : Z) (max_length : option Z) : Outcome string :=
  if Py.contains body name then
    match as_str P (Py.get body name PyNone) with
    | Some s =>
        if (min_length <=? Z.of_nat (String.length s))%Z
           && match max_length with
              | Some hi => (Z.of_nat (String.length s) <=? hi)%Z
              | None => true
              end
        then Returns s
        else Raises (body_error name)
    | None => Raises (body_error name)
    end
  else Raises (body_error name).

(** [name: Optional[Dict[str, Any]]] with the given default. *)
Definition optional_dict (body : dict) (name : string)
           (default : option dict) : Outcome (option dict) :=
  if Py.contains body name then
    match as_opt_dict P (Py.get body name PyNone) with
    | Some d => Returns d
    | None => Raises (body_error name)
    end
  else Returns default.

(** [name: int = Field(default=default, ge=lo, le=hi)] *)
Definition bounded_int (body : dict) (name : string)
           (default lo hi : Z) : Outcome Z :=
  if Py.contains body name then
    match as_int P (Py.get body name PyNone) with
    | Some n =>
        if (lo <=? n)%Z && (n <=? hi)%Z then Returns n
        else Raises (body_error name)
    | None => Raises (body_error name)
    end
  else Returns default.

End Fields.

(** Sequencing of outcomes (pure code that may raise). *)
Definition and_then {A B} (o : Outcome A) (k : A -> Outcome B) : Outcome B :=
  match o with
  | Returns a => k a
  | Raises e => Raises e
  end.

(** [for x in xs: ys.append(f x)], stopping at the first exception. *)
Fixpoint each {A B} (f : A -> Outcome B) (xs : list A) : Outcome (list B) :=
  match xs with
  | [] => Returns []
  | x :: rest =>
      and_then (f x) (fun y =>
      and_then (each f rest) (fun ys => Returns (y :: ys)))
  end.

(** ** The request and response models of [mem0_server.py] *)

Module MemoryInput.
Record t : Type := mk {
  content : string;
  user_id : string;
  metadata : option dict
}.

(** [content] and [user_id] declare [min_length=1] and no upper bound;
    [metadata] defaults to an empty dict. *)
Definition validate (P : Pydantic) (body : PyVal) : Outcome t :=
  match body with
  | PyDict b =>
      and_then (required_str P b "content" 1 None) (fun c =>
      and_then (required_str P b "user_id" 1 None) (fun u =>
      and_then (optional_dict P b "metadata" (Some [])) (fun m =>
      Returns (mk c u m))))
  | _ => Raises (body_error "body")
  end.
End MemoryInput.

Module SearchInput.
Record t : Type := mk {
  query : string;
  user_id : string;
  limit : Z
}.

Definition validate (P : Pydantic) (body : PyVal) : Outcome t :=
  match body with
  | PyDict b =>
      and_then (required_str P b "query" 1 None) (fun q =>
      and_then (required_str P b "user_id" 1 None) (fun u =>
      and_then (bounded_int P b "limit" 5 1 100) (fun l =>
      Returns (mk q u l))))
  | _ => Raises (body_error "body")
  end.
End SearchInput.

Module BatchMemoryInput.
Record t : Type := mk { memories : list MemoryInput.t }.

(** [memories: List[MemoryInput] = Field(..., min_items=1, max_items=50)] *)
Definition validate (P : Pydantic) (body : PyVal) : Outcome t :=
  match body with
  | PyDict b =>
      if Py.contains b "memories" then
        match Py.get b "memories" PyNone with
        | PyList items =>
            if (1 <=? List.length items)%nat
               && (List.length items <=? 50)%nat
            then and_then (each (MemoryInput.validate P) items)
                          (fun ms => Returns (mk ms))
            else Raises (body_error "memories")
        | _ => Raises (body_error "memories")
        end
      else Raises (body_error "memories")
  | _ => Raises (body_error "body")
  end.
End BatchMemoryInput.

Module SuccessResponse.
Record t : Type := mk {
  success : bool;
  message : option string;
  data : option dict
}.
End SuccessResponse.

Module MemoryListResponse.
Record t : Type := mk {
  success : bool;
  memories : list dict;
  count : nat
}.

(** The constructor: [memories] is validated as [List[Dict[str, Any]]]. *)
Definition new (P : Pydantic) (memories_arg : PyVal) (count_arg : nat)
  : Outcome t :=
  match as_dict_list P memories_arg with
  | Some ms => Returns (mk true ms count_arg)
  | None =>
      Raises (validation_error P "MemoryListResponse" [memories_arg])
  end.
End MemoryListResponse.

Module SearchResult.
Record t : Type := mk {
  memory : string;
  score : spec_float;
  metadata : option dict
}.

(** The constructor [SearchResult(memory=.., score=.., metadata=..)]:
    [memory: str], [score: float], [metadata: Optional[Dict[str, Any]]]. *)
Definition new (P : Pydantic) (memory_arg score_arg metadata_arg : PyVal)
  : Outcome t :=
  match as_str P memory_arg, as_float P score_arg,
        as_opt_dict P metadata_arg with
  | Some m, Some s, Some md => Returns (mk m s md)
  | _, _, _ =>
      Raises (validation_error P "SearchResult"
                               [memory_arg; score_arg; metadata_arg])
  end.
End SearchResult.

Module SearchResponse.
Record t : Type := mk {
  success : bool;
  results : list SearchResult.t;
  count : nat
}.
End SearchResponse.

(** ** The environment and the module-level configuration *)

(** [os.environ], after [load_dotenv()] has added the entries of the local
    [.env] file that the process environment does not set. *)
Definition Environ : Type := list (string * string).

(** [os.getenv(name)] and [os.getenv(name, default)] *)
Fixpoint getenv (environ : Environ) (name : string) : option string :=
  match environ with
  | [] => None
  | (k, v) :: rest => if String.eqb k name then Some v else getenv rest name
  end.

Definition getenv_or (environ : Environ) (name default : string) : string :=
  match getenv environ name with
  | Some v => v
  | None => default
  end.

Record JSONResponse : Type := {
  status_code : Z;
  content : PyVal
}.

Definition opt_str (o : option string) : PyVal :=
  match o with Some s => PyStr s | None => PyNone end.

Definition opt_dict (o : option dict) : PyVal :=
  match o with Some d => PyDict d | None => PyNone end.

(** The JSON bodies of the response models. *)
Definition SuccessResponse_json (r : SuccessResponse.t) : PyVal :=
  PyDict [("success", PyBool (SuccessResponse.success r));
          ("message", opt_str (SuccessResponse.message r));
          ("data", opt_dict (SuccessResponse.data r))].

Definition SearchResult_json (r : SearchResult.t) : PyVal :=
  PyDict [("memory", PyStr (SearchResult.memory r));
          ("score", PyFloat (SearchResult.score r));
          ("metadata", opt_dict (SearchResult.metadata r))].

Definition SearchResponse_json (r : SearchResponse.t) : PyVal :=
  PyDict [("success", PyBool (SearchResponse.success r));
          ("results", PyList (map SearchResult_json (SearchResponse.results r)));
          ("count", PyInt (Z.of_nat (SearchResponse.count r)))].

Definition MemoryListResponse_json (r : MemoryListResponse.t) : PyVal :=
  PyDict [("success", PyBool (MemoryListResponse.success r));
          ("memories", PyList (map PyDict (MemoryListResponse.memories r)));
          ("count", PyInt (Z.of_nat (MemoryListResponse.count r)))].

(** ** Serialising a response *)

(** Whether FastAPI can turn a value of a response into JSON after the
    handler has returned: it cannot for an object of a class it has no
    serialiser for, nor for a float that is not finite (the JSON encoder
    runs with [allow_nan=False]). *)
Fixpoint jsonable (v : PyVal) : bool :=
  match v with
  | PyNone | PyBool _ | PyInt _ | PyStr _ => true
  | PyFloat x =>
      match x with
      | S754_nan | S754_infinity _ => false
      | _ => true
      end
  | PyList items =>
      (fix all (vs : list PyVal) : bool :=
         match vs with
         | [] => true
         | item :: rest => jsonable item && all rest
         end) items
  | PyDict entries =>
      (fix all (kvs : list (string * PyVal)) : bool :=
         match kvs with
         | [] => true
         | (_, item) :: rest => jsonable item && all rest
         end) entries
  | PyObj _ _ => false
  end.

(** The exception of a response that cannot be serialised. *)
Definition serialization_error : PyExc :=
  Exception "PydanticSerializationError" "Unable to serialize unknown type".

(** ** The endpoints of [mem0_server.py] *)

Section Endpoints.

Variable P : Pydantic.
Variable environ : Environ.
(** The global [memory_instance]: [None] until start-up has built the
    library instance. *)
Variable memory_instance : option Memory.

Definition QDRANT_URL : string :=
  getenv_or environ "QDRANT_URL" "http://localhost:6333".
Definition QDRANT_API_KEY : string :=
  getenv_or environ "QDRANT_API_KEY" EmptyString.
Definition OPENAI_API_KEY : string :=
  getenv_or environ "OPENAI_API_KEY" EmptyString.
Definition MEM0_COLLECTION : string :=
  getenv_or environ "MEM0_COLLECTION" "user_memories".

Definition service_unavailable {A} : Handler A :=
  raise (HTTPException 503 "Memory service not initialized").

Definition internal_error {A} (what : string) (e : PyExc) : Handler A :=
  raise (HTTPException 500 (what ++ str_exc e)).

(** [global_exception_handler(request, exc)] *)
Definition global_exception_handler (exc : PyExc) : JSONResponse :=
  {| status_code := 500;
     content :=
       PyDict [("success", PyBool false);
               ("error", PyStr "Internal server error");
               ("detail",
                match getenv environ "DEBUG" with
                | Some v => if String.eqb v "true"
                            then PyStr (str_exc exc) else PyNone
                | None => PyNone
                end)] |}.

(** [health_check()] *)
Definition health_check : PyVal :=
  PyDict
    [("status",
      PyStr (match memory_instance with
             | Some _ => "healthy" | None => "degraded" end));
     ("service", PyStr "mem0-server");
     ("version", PyStr "1.0.0");
     ("connections",
      PyDict
        [("qdrant",
          PyDict [("url", PyStr QDRANT_URL);
                  ("status",
                   PyStr (match memory_instance with
                          | Some _ => "connected"
                          | None => "disconnected" end))]);
         ("collection", PyStr MEM0_COLLECTION)])].

(** [memory.metadata or {}] *)
Definition metadata_or_empty (metadata : option dict) : dict :=
  match metadata with
  | Some d => d
  | None => []
  end.

(** [add_memory(memory)] *)
Definition add_memory (memory : MemoryInput.t)
  : Handler SuccessResponse.t :=
  match memory_instance with
  | None => service_unavailable
  | Some inst =>
      try_except
        (result <- invoke inst
                     (CallAdd (MemoryInput.content memory)
                              (MemoryInput.user_id memory)
                              (metadata_or_empty
                                 (MemoryInput.metadata memory))) ;;
         ret (SuccessResponse.mk true (Some "Memory added successfully")
                                 (Some [("memory_id", result)])))
        (internal_error "Failed to add memory: ")
  end.

(** The arguments the body of the search loop passes to [SearchResult]
    for one raw entry [r]: a dict is read by key, an object that has a
    [memory] attribute by attribute, a string is the text itself, and
    anything else keeps the initial values (the empty string, [1.0] and
    [{}]). *)
Definition result_fields (r : PyVal) : PyVal * PyVal * PyVal :=
  match r with
  | PyDict d =>
      (Py.get d "memory" (PyStr EmptyString),
       Py.get d "score" (PyFloat float_0_0),
       Py.get d "metadata" PyNone)
  | _ =>
      if Py.hasattr r "memory" then
        (Py.getattr r "memory" (PyStr EmptyString),
         Py.getattr r "score" (PyFloat float_0_0),
         Py.getattr r "metadata" PyNone)
      else if Py.is_str r then
        (r, PyFloat float_1_0, PyDict [])
      else
        (PyStr EmptyString, PyFloat float_1_0, PyDict [])
  end.

Definition format_result (r : PyVal) : Outcome SearchResult.t :=
  let '(memory_text, score, metadata) := result_fields r in
  SearchResult.new P memory_text score metadata.

(** [search_memory(search)] *)
Definition search_memory (search : SearchInput.t)
  : Handler SearchResponse.t :=
  match memory_instance with
  | None => service_unavailable
  | Some inst =>
      try_except
        (results <- invoke inst
                      (CallSearch (SearchInput.query search)
                                  (SearchInput.user_id search)
                                  (SearchInput.limit search)) ;;
         (* the log line evaluates [len(results) if results else 0] *)
         lift (if Py.truthy results then PyOps.len results
               else Returns 0%nat) ;;;
         formatted_results <-
           (if Py.truthy results then
              lift (and_then (PyOps.iter results) (each format_result))
            else ret []) ;;
         ret (SearchResponse.mk true formatted_results
                                (List.length formatted_results)))
        (internal_error "Failed to search memory: ")
  end.

(** The list of memories in what [get_all] returned: newer versions of the
    library return [{'results': [...]}] instead of a plain list. *)
Definition memories_of (raw : PyVal) : PyVal :=
  match raw with
  | PyDict d => if Py.contains d "results"
                then Py.get d "results" PyNone else PyList []
  | PyList _ => raw
  | _ => PyList []
  end.

(** [get_memories(user_id, limit)] *)
Definition get_memories (user_id : string) (limit : Z)
  : Handler MemoryListResponse.t :=
  match memory_instance with
  | None => service_unavailable
  | Some inst =>
      try_except
        (raw <- invoke inst (CallGetAll user_id (Some limit)) ;;
         let memories := memories_of raw in
         lift (PyOps.len memories) ;;;
         count <- lift (PyOps.len memories) ;;
         lift (MemoryListResponse.new P memories count))
        (internal_error "Failed to get memories: ")
  end.

(** [delete_memory(memory_id)] *)
Definition delete_memory (memory_id : string)
  : Handler SuccessResponse.t :=
  match memory_instance with
  | None => service_unavailable
  | Some inst =>
      try_except
        (invoke inst (CallDelete (PyStr memory_id)) ;;;
         ret (SuccessResponse.mk true (Some "Memory deleted successfully")
                                 None))
        (internal_error "Failed to delete memory: ")
  end.

(** [mem.get("id") if isinstance(mem, dict) else getattr(mem, "id", None)] *)
Definition mem_id_of (mem : PyVal) : PyVal :=
  match mem with
  | PyDict d => Py.get d "id" PyNone
  | _ => Py.getattr mem "id" PyNone
  end.

(** The loop of [delete_user_memories] over the fetched memories. *)
Fixpoint delete_each (inst : Memory) (memories : list PyVal)
         (deleted_count : nat) : Handler nat :=
  match memories with
  | [] => ret deleted_count
  | mem :: rest =>
      let mem_id := mem_id_of mem in
      if Py.truthy mem_id then
        invoke inst (CallDelete mem_id) ;;;
        delete_each inst rest (deleted_count + 1)
      else delete_each inst rest deleted_count
  end.

(** [delete_user_memories(user_id)] *)
Definition delete_user_memories (user_id : string)
  : Handler SuccessResponse.t :=
  match memory_instance with
  | None => service_unavailable
  | Some inst =>
      try_except
        (raw <- invoke inst (CallGetAll user_id None) ;;
         let memories := memories_of raw in
         deleted_count <-
           (if Py.truthy memories then
              items <- lift (PyOps.iter memories) ;;
              delete_each inst items 0
            else ret 0%nat) ;;
         ret (SuccessResponse.mk
                true
                (Some ("Deleted " ++ Py.str_of_nat deleted_count
                       ++ " memories")%string)
                (Some [("deleted_count",
                        PyInt (Z.of_nat deleted_count))])))
        (internal_error "Failed to delete memories: ")
  end.

(** The loop of [add_memories_batch]: item [i] is added inside its own
    [try], its id or its error is appended, and the loop goes on. *)
Fixpoint batch_each (inst : Memory) (memories : list MemoryInput.t)
         (i : nat) (memory_ids errors : list PyVal)
  : Handler (list PyVal * list PyVal) :=
  match memories with
  | [] => ret (memory_ids, errors)
  | memory :: rest =>
      step <-
        try_except
          (result <- invoke inst
                       (CallAdd (MemoryInput.content memory)
                                (MemoryInput.user_id memory)
                                (metadata_or_empty
                                   (MemoryInput.metadata memory))) ;;
           ret (memory_ids ++ [result], errors))
          (fun e =>
             ret (memory_ids,
                  errors ++ [PyDict [("index", PyInt (Z.of_nat i));
                                     ("error", PyStr (str_exc e))]])) ;;
      batch_each inst rest (S i) (fst step) (snd step)
  end.

(** [add_memories_batch(batch)] *)
Definition add_memories_batch (batch : BatchMemoryInput.t)
  : Handler SuccessResponse.t :=
  match memory_instance with
  | None => service_unavailable
  | Some inst =>
      lists <- batch_each inst (BatchMemoryInput.memories batch) 0 [] [] ;;
      let memory_ids := fst lists in
      let errors := snd lists in
      ret (SuccessResponse.mk
             (Nat.eqb (List.length errors) 0)
             (Some ("Added " ++ Py.str_of_nat (List.length memory_ids)
                    ++ " memories")%string)
             (Some [("memory_ids", PyList memory_ids);
                    ("errors",
                     if Py.truthy (PyList errors)
                     then PyList errors else PyNone)]))
  end.

(** *** What FastAPI makes of a handler's outcome *)

(** A returned model is serialised and is a 200 response; an
    [HTTPException] is a response with its status code and detail; a body
    that does not fit the model is a 422; any other exception, the one of a
    returned model that cannot be serialised included, reaches
    [global_exception_handler]. *)
Definition respond {A} (to_json : A -> PyVal) (o : Outcome A)
  : JSONResponse :=
  match o with
  | Returns a =>
      if jsonable (to_json a)
      then {| status_code := 200; content := to_json a |}
      else global_exception_handler serialization_error
  | Raises (HTTPException sc detail) =>
      {| status_code := sc; content := PyDict [("detail", PyStr detail)] |}
  | Raises (RequestValidationError field) =>
      {| status_code := 422;
         content :=
           PyDict [("detail",
                    PyList [PyDict [("loc", PyList [PyStr "body";
                                                    PyStr field])]])] |}
  | Raises (Exception cls msg) =>
      global_exception_handler (Exception cls msg)
  end.

Definition serve {A} (to_json : A -> PyVal) (handler : Handler A)
           (history : list Call) : JSONResponse * list Call :=
  let (o, history') := handler history in
  (respond to_json o, history').

(** The routes: the body is validated against the endpoint's model, then
    the handler runs. *)
Definition GET_health (history : list Call) : JSONResponse * list Call :=
  serve (fun v => v) (ret health_check) history.

Definition POST_memory_add (body : PyVal) :=
  serve SuccessResponse_json
        (memory <- lift (MemoryInput.validate P body) ;; add_memory memory).

Definition POST_memory_search (body : PyVal) :=
  serve SearchResponse_json
        (search <- lift (SearchInput.validate P body) ;;
         search_memory search).

(** [limit] is a query parameter with default 100. *)
Definition GET_memory (user_id : string) (limit : option Z) :=
  serve MemoryListResponse_json
        (get_memories user_id
                      (match limit with Some l => l | None => 100%Z end)).

Definition DELETE_memory (memory_id : string) :=
  serve SuccessResponse_json (delete_memory memory_id).

Definition DELETE_memory_user (user_id : string) :=
  serve SuccessResponse_json (delete_user_memories user_id).

Definition POST_memory_batch_add (body : PyVal) :=
  serve SuccessResponse_json
        (batch <- lift (BatchMemoryInput.validate P body) ;;
         add_memories_batch batch).

End Endpoints.

(** ** The request schemas of [app/models/schemas.py] *)

Module Schemas.

Module MemoryCreate.
Record t : Type := mk {
  content : string;
  user_id : string;
  metadata : option dict
}.

(** [content]: 1 to 10000 characters ([MemoryBase]); [user_id]: 1 to 100
    characters; [metadata] defaults to [None]. *)
Definition validate (P : Pydantic) (body : PyVal) : Outcome t :=
  match body with
  | PyDict b =>
      and_then (required_str P b "content" 1 (Some 10000%Z)) (fun c =>
      and_then (required_str P b "user_id" 1 (Some 100%Z)) (fun u =>
      and_then (optional_dict P b "metadata" None) (fun m =>
      Returns (mk c u m))))
  | _ => Raises (body_error "body")
  end.
End MemoryCreate.

Module MemorySearch.
Record t : Type := mk {
  query : string;
  user_id : string;
  limit : Z;
  filters : option dict
}.

Definition validate (P : Pydantic) (body : PyVal) : Outcome t :=
  match body with
  | PyDict b =>
      and_then (required_str P b "query" 1 (Some 500%Z)) (fun q =>
      and_then (required_str P b "user_id" 1 (Some 100%Z)) (fun u =>
      and_then (bounded_int P b "limit" 10 1 100) (fun l =>
      and_then (optional_dict P b "filters" None) (fun f =>
      Returns (mk q u l f)))))
  | _ => Raises (body_error "body")
  end.
End MemorySearch.

End Schemas.

(** ** The settings loader of [app/config/settings.py] *)

Definition lower_ascii (c : ascii) : ascii :=
  let n := nat_of_ascii c in
  if (65 <=? n)%nat && (n <=? 90)%nat then ascii_of_nat (n + 32) else c.

(** [s.lower()] *)
Fixpoint lower (s : string) : string :=
  match s with
  | EmptyString => EmptyString
  | String c rest => String (lower_ascii c) (lower rest)
  end.

Module Settings.

Record t : Type := mk {
  qdrant_url : string;
  qdrant_api_key : option string;
  openai_api_key : string;
  openai_embedding_model : string;
  mem0_collection : string;
  mem0_host : string;
  mem0_port : Z;
  cors_origins : list string;
  log_level : string;
  debug : bool;
  app_name : string;
  app_version : string
}.

Definition field_names : list string :=
  ["qdrant_url"; "qdrant_api_key"; "openai_api_key";
   "openai_embedding_model"; "mem0_collection"; "mem0_host"; "mem0_port";
   "cors_origins"; "log_level"; "debug"; "app_name"; "app_version"].

(** How pydantic-settings turns the text of a variable into a value of a
    field that is not a string: [int], [bool], and [List[str]] (read as
    JSON).  The coercions are the library's and stay a parameter. *)
Record Coercions : Type := {
  env_int : string -> option Z;
  env_bool : string -> option bool;
  env_str_list : string -> option (list string)
}.

(** What the loader reads: the process environment and the [.env] file
    ([env_file=".env"]). *)
Record Sources : Type := {
  os_environ : Environ;
  dotenv : Environ
}.

(** [case_sensitive=False]: the names of the variables are lower-cased and
    looked up by the field's name; of two names that agree up to case the
    later one is kept. *)
Fixpoint env_lookup (vars : Environ) (field : string) : option string :=
  match vars with
  | [] => None
  | (k, v) :: rest =>
      match env_lookup rest field with
      | Some w => Some w
      | None => if String.eqb (lower k) field then Some v else None
      end
  end.

(** The environment has priority over the [.env] file. *)
Definition read (src : Sources) (field : string) : option string :=
  match env_lookup (os_environ src) field with
  | Some v => Some v
  | None => env_lookup (dotenv src) field
  end.

(** The settings model forbids extra inputs, and every entry of the [.env]
    file is an input: an entry that names no field is refused. *)
Definition extra_inputs (file : Environ) : bool :=
  existsb
    (fun kv => negb (existsb (String.eqb (lower (fst kv))) field_names))
    file.

(** A field with a default: the default when no variable sets it, the
    coerced text otherwise. *)
Definition with_default {A} (raw : option string) (coerce : string -> option A)
           (default : A) : option A :=
  match raw with
  | None => Some default
  | Some v => coerce v
  end.

Definition ValidationError (msg : string) : PyExc :=
  Exception "ValidationError" msg.

(** A string field with a default. *)
Definition with_default_str (raw : option string) (default : string)
  : string :=
  match raw with
  | None => default
  | Some v => v
  end.

(** [Settings()] *)
Definition load (C : Coercions) (src : Sources) : Outcome t :=
  if extra_inputs (dotenv src) then
    Raises (ValidationError "Extra inputs are not permitted")
  else
    match read src "openai_api_key" with
    | None => Raises (ValidationError "openai_api_key: Field required")
    | Some key =>
        match with_default (read src "mem0_port") (env_int C) 8002%Z,
              with_default (read src "cors_origins") (env_str_list C) ["*"],
              with_default (read src "debug") (env_bool C) false
        with
        | Some port, Some origins, Some dbg =>
            Returns
              {| qdrant_url :=
                   with_default_str (read src "qdrant_url")
                                    "http://localhost:6333";
                 qdrant_api_key := read src "qdrant_api_key";
                 openai_api_key := key;
                 openai_embedding_model :=
                   with_default_str (read src "openai_embedding_model")
                                    "text-embedding-3-small";
                 mem0_collection :=
                   with_default_str (read src "mem0_collection")
                                    "user_memories";
                 mem0_host :=
                   with_default_str (read src "mem0_host") "0.0.0.0";
                 mem0_port := port;
                 cors_origins := origins;
                 log_level := with_default_str (read src "log_level") "info";
                 debug := dbg;
                 app_name :=
                   with_default_str (read src "app_name") "Mem0 Server";
                 app_version :=
                   with_default_str (read src "app_version") "1.0.0" |}
        | _, _, _ => Raises (ValidationError "Input should be a valid value")
        end
    end.

(** *** An instance of the coercions: the plain spellings *)

Definition digit_of (c : ascii) : option Z :=
  let n := nat_of_ascii c in
  if (48 <=? n)%nat && (n <=? 57)%nat then Some (Z.of_nat (n - 48)) else None.

Fixpoint digits (s : string) (acc : Z) : option Z :=
  match s with
  | EmptyString => Some acc
  | String c rest =>
      match digit_of c with
      | Some d => digits rest (10 * acc + d)%Z
      | None => None
      end
  end.

(** A decimal integer: an optional sign and at least one digit. *)
Definition plain_int (s : string) : option Z :=
  match s with
  | EmptyString => None
  | String "-"%char (String _ _ as rest) => option_map Z.opp (digits rest 0)
  | String "+"%char (String _ _ as rest) => digits rest 0
  | String "-"%char EmptyString => None
  | String "+"%char EmptyString => None
  | _ => digits s 0
  end.

(** The literals pydantic reads as a bool, in any case. *)
Definition plain_bool (s : string) : option bool :=
  let v := lower s in
  if existsb (String.eqb v) ["1"; "on"; "t"; "true"; "y"; "yes"] then Some true
  else if existsb (String.eqb v) ["0"; "off"; "f"; "false"; "n"; "no"]
       then Some false
       else None.

Inductive ListState : Type :=
| AtStart | AfterOpen | InString | AfterItem | AfterComma | AtEnd.

Definition double_quote : ascii := "034"%char.
Definition backslash : ascii := "092"%char.

Definition is_space (c : ascii) : bool :=
  let n := nat_of_ascii c in
  (n =? 32)%nat || (n =? 9)%nat || (n =? 10)%nat || (n =? 13)%nat.

(** A JSON array of string literals; a literal with an escape sequence is
    outside this instance and is refused. *)
Fixpoint json_str_list (s : string) (st : ListState) (cur : string)
         (acc : list string) : option (list string) :=
  match s with
  | EmptyString => match st with AtEnd => Some acc | _ => None end
  | String c rest =>
      match st with
      | InString =>
          if Ascii.eqb c double_quote
          then json_str_list rest AfterItem EmptyString (acc ++ [cur])
          else if Ascii.eqb c backslash then None
               else json_str_list rest InString
                                  (cur ++ String c EmptyString) acc
      | _ =>
          if is_space c then json_str_list rest st cur acc
          else
            match st with
            | AtStart =>
                if Ascii.eqb c "["%char
                then json_str_list rest AfterOpen cur acc else None
            | AfterOpen =>
                if Ascii.eqb c "]"%char then json_str_list rest AtEnd cur acc
                else if Ascii.eqb c double_quote
                     then json_str_list rest InString EmptyString acc
                     else None
            | AfterItem =>
                if Ascii.eqb c "]"%char then json_str_list rest AtEnd cur acc
                else if Ascii.eqb c ","%char
                     then json_str_list rest AfterComma cur acc
                     else None
            | AfterComma =>
                if Ascii.eqb c double_quote
                then json_str_list rest InString EmptyString acc
                else None
            | _ => None
            end
      end
  end.

Definition plain_coercions : Coercions := {|
  env_int := plain_int;
  env_bool := plain_bool;
  env_str_list := fun s => json_str_list s AtStart EmptyString []
|}.

End Settings.

(** ** Reading a JSON body, and the data of the examples *)

(** The value at a path of keys in nested JSON objects. *)
Fixpoint at_path (path : list string) (v : PyVal) : PyVal :=
  match path with
  | [] => v
  | key :: rest =>
      match v with
      | PyDict d => at_path rest (Py.get d key PyNone)
      | _ => PyNone
      end
  end.

(** The 503 response of an endpoint whose adapter is unset. *)
Definition unavailable : JSONResponse :=
  {| status_code := 503;
     content := PyDict [("detail", PyStr "Memory service not initialized")] |}.

(** The call [add_memory] and [add_memories_batch] make for one input. *)
Definition add_call (memory : MemoryInput.t) : Call :=
  CallAdd (MemoryInput.content memory) (MemoryInput.user_id memory)
          (metadata_or_empty (MemoryInput.metadata memory)).

(** A library instance for the examples: [add] raises on the content
    [boom] and otherwise returns an id numbered by the calls made so far,
    [search] returns two hits whatever the limit, [get_all] returns three
    records of which the second has no id. *)
Definition example_memory : Memory :=
  fun history call =>
    match call with
    | CallAdd content _ _ =>
        if String.eqb content "boom"
        then Raises (Exception "RuntimeError" "boom")
        else Returns (PyStr ("id-" ++ Py.str_of_nat (List.length history)))
    | CallSearch _ _ _ =>
        Returns (PyList [PyDict [("memory", PyStr "likes tea")];
                         PyStr "likes tea"])
    | CallGetAll _ _ =>
        Returns (PyDict [("results",
                          PyList [PyDict [("id", PyStr "m1")];
                                  PyDict [("memory", PyStr "no id")];
                                  PyDict [("id", PyStr "m2")]])])
    | CallDelete _ => Returns PyNone
    end.

(** The same instance, except that its first [get_all] leaves out the
    record without an id. *)
Definition example_memory_without : Memory :=
  fun history call =>
    match history, call with
    | [], CallGetAll _ _ =>
        Returns (PyDict [("results",
                          PyList [PyDict [("id", PyStr "m1")];
                                  PyDict [("id", PyStr "m2")]])])
    | _, _ => example_memory history call
    end.

(** A batch of three inputs of which the second makes the example library
    raise. *)
Definition example_batch : BatchMemoryInput.t :=
  BatchMemoryInput.mk
    [MemoryInput.mk "likes tea" "u1" (Some []);
     MemoryInput.mk "boom" "u1" (Some []);
     MemoryInput.mk "likes jazz" "u1" None].

(** A string of [n] copies of a character. *)
Definition string_of (n : N) (c : ascii) : string :=
  N.iter n (String c) EmptyString.

(** *** Batch add: the outcome of each item *)

(** The outcomes of the items' [add] calls in input order, every call made
    after the calls of the items before it. *)
Fixpoint add_outcomes (inst : Memory) (memories : list MemoryInput.t)
         (history : list Call) : list (Outcome PyVal) :=
  match memories with
  | [] => []
  | memory :: rest =>
      inst history (add_call memory)
      :: add_outcomes inst rest (history ++ [add_call memory])
  end.

Definition succeeded (o : Outcome PyVal) : Prop := exists v, o = Returns v.

(** The ids of the items that succeeded, in input order. *)
Fixpoint successes (outcomes : list (Outcome PyVal)) : list PyVal :=
  match outcomes with
  | [] => []
  | Returns v :: rest => v :: successes rest
  | Raises _ :: rest => successes rest
  end.

Definition error_entry (i : nat) (e : PyExc) : PyVal :=
  PyDict [("index", PyInt (Z.of_nat i)); ("error", PyStr (str_exc e))].

(** One error entry per item that failed, with the item's index; [i] is the
    index of the first outcome. *)
Fixpoint failures (i : nat) (outcomes : list (Outcome PyVal)) : list PyVal :=
  match outcomes with
  | [] => []
  | Returns _ :: rest => failures (S i) rest
  | Raises e :: rest => error_entry i e :: failures (S i) rest
  end.

(** *** Delete all: the ids of the fetched memories *)

(** The ids [delete_user_memories] deletes among the fetched entries: the
    ids that are present and truthy. *)
Definition ids_of (memories : list PyVal) : list PyVal :=
  filter Py.truthy (map mem_id_of memories).

(** The response of [delete_user_memories] that reports [n] deletions. *)
Definition deleted_response (n : nat) : SuccessResponse.t :=
  SuccessResponse.mk
    true
    (Some ("Deleted " ++ Py.str_of_nat n ++ " memories")%string)
    (Some [("deleted_count", PyInt (Z.of_nat n))]).

(** A fetched entry without an id: a mapping without the key, an object
    without the attribute, or an id that is falsy. *)
Inductive no_id : PyVal -> Prop :=
| mapping_without_id (d : dict) :
    Py.contains d "id" = false -> no_id (PyDict d)
| object_without_id (cls : string) (attrs : dict) :
    Py.contains attrs "id" = false -> no_id (PyObj cls attrs)
| falsy_id (mem : PyVal) :
    Py.truthy (mem_id_of mem) = false -> no_id mem.

(** *** Search: raw entries *)

(** A mapping and an object's attributes with the same content: the same
    [memory], [score] and [metadata], present or not. *)
Definition same_content (d attrs : dict) : Prop :=
  forall key default,
    In key ["memory"; "score"; "metadata"] ->
    Py.get d key default = Py.get attrs key default.

(** The number of entries in what [search] returned (none when it has no
    length). *)
Definition raw_entries (raw : PyVal) : nat :=
  match PyOps.len raw with
  | Returns n => n
  | Raises _ => 0%nat
  end.

(** *** Settings: variables whose text fits their field *)

(** Every variable that is set for a field of type [int], [bool] or
    [List[str]] has a text the coercion accepts, and the [.env] file names
    fields only. *)
Definition well_typed (C : Settings.Coercions) (src : Settings.Sources)
  : Prop :=
  Settings.extra_inputs (Settings.dotenv src) = false
  /\ (forall v, Settings.read src "mem0_port" = Some v ->
                Settings.env_int C v <> None)
  /\ (forall v, Settings.read src "cors_origins" = Some v ->
                Settings.env_str_list C v <> None)
  /\ (forall v, Settings.read src "debug" = Some v ->
                Settings.env_bool C v <> None).

(** A process environment that sets the key and a port that is no number. *)
Definition example_bad_port : Settings.Sources :=
  {| Settings.os_environ := [("OPENAI_API_KEY", "sk-test");
                             ("MEM0_PORT", "abc")];
     Settings.dotenv := [] |}.

(** A process environment that sets the key and the port only. *)
Definition example_sources : Settings.Sources :=
  {| Settings.os_environ := [("OPENAI_API_KEY", "sk-test");
                             ("MEM0_PORT", "9000")];
     Settings.dotenv := [("debug", "true")] |}.

(** ** The rest of [mem0_server.py]: CORS origins and the lifecycle *)

(** [s.split(sep)] for a separator of one character: the pieces between the
    occurrences of [sep], of which there is always at least one. *)
Fixpoint split (sep : ascii) (s : string) : list string :=
  match s with
  | EmptyString => [EmptyString]
  | String c rest =>
      if Ascii.eqb c sep then EmptyString :: split sep rest
      else
        match split sep rest with
        | part :: parts => String c part :: parts
        | [] => [String c EmptyString]
        end
  end.

(** [sep.join(parts)] *)
Fixpoint join (sep : ascii) (parts : list string) : string :=
  match parts with
  | [] => EmptyString
  | part :: rest =>
      match rest with
      | [] => part
      | _ => (part ++ String sep (join sep rest))%string
      end
  end.

(** [sep in s] *)
Fixpoint has_char (sep : ascii) (s : string) : bool :=
  match s with
  | EmptyString => false
  | String c rest => Ascii.eqb c sep || has_char sep rest
  end.

(** How many times [sep] occurs in [s]. *)
Fixpoint count_char (sep : ascii) (s : string) : nat :=
  match s with
  | EmptyString => 0%nat
  | String c rest =>
      ((if Ascii.eqb c sep then 1 else 0) + count_char sep rest)%nat
  end.

(** [cors_origins = os.getenv("CORS_ORIGINS", "*").split(",")] *)
Definition cors_origins (environ : Environ) : list string :=
  split ","%char (getenv_or environ "CORS_ORIGINS" "*").

Module Lifecycle.

(** The arguments [initialize_memory] builds the vector-store client
    with. *)
Record QdrantClient : Type := {
  url : string;
  api_key : option string;
  timeout : spec_float
}.

(** The configuration passed to [Memory.from_config]: the vector store
    (provider [qdrant]) and the embedder (provider [openai]). *)
Record MemoryConfig : Type := {
  vector_store_provider : string;
  client : QdrantClient;
  collection_name : string;
  embedder_provider : string;
  embedder_model : string;
  embedder_api_key : string
}.

(** What start-up depends on outside the repository: the two imports, the
    construction of the client and [Memory.from_config], each of which may
    raise, and the class hierarchy of the exceptions they raise
    ([issubclass cls base], by class name). *)
Record Dependencies : Type := {
  import_modules : option PyExc;
  connect : QdrantClient -> option PyExc;
  from_config : MemoryConfig -> Outcome Memory;
  issubclass : string -> string -> bool
}.

(** The float literal [5.0]. *)
Definition float_5_0 : spec_float :=
  S754_finite false 5629499534213120 (-50).

(** [except ImportError] catches an exception whose class is [ImportError]
    or any subclass of it; [HTTPException] and the request validation error
    are no such classes. *)
Definition is_import_error (deps : Dependencies) (e : PyExc) : bool :=
  match e with
  | Exception cls _ => issubclass deps cls "ImportError"
  | _ => false
  end.

(** The client [initialize_memory] constructs: the API key is passed only
    when it is not empty. *)
Definition qdrant_client (environ : Environ) : QdrantClient :=
  {| url := QDRANT_URL environ;
     api_key := if String.eqb (QDRANT_API_KEY environ) EmptyString
                then None else Some (QDRANT_API_KEY environ);
     timeout := float_5_0 |}.

Definition config (environ : Environ) : MemoryConfig :=
  {| vector_store_provider := "qdrant";
     client := qdrant_client environ;
     collection_name := MEM0_COLLECTION environ;
     embedder_provider := "openai";
     embedder_model := "text-embedding-3-small";
     embedder_api_key := OPENAI_API_KEY environ |}.

(** The body of the [try] of [initialize_memory]. *)
Definition build (deps : Dependencies) (environ : Environ) : Outcome Memory :=
  match import_modules deps with
  | Some e => Raises e
  | None =>
      match connect deps (qdrant_client environ) with
      | Some e => Raises e
      | None => from_config deps (config environ)
      end
  end.

(** [initialize_memory()]: the outcome and the new value of the global
    [memory_instance].  An import error is raised again; any other
    exception is logged and start-up goes on. *)
Definition initialize_memory (deps : Dependencies) (environ : Environ)
           (memory_instance : option Memory)
  : Outcome unit * option Memory :=
  match build deps environ with
  | Returns inst => (Returns tt, Some inst)
  | Raises e =>
      if is_import_error deps e then (Raises e, memory_instance)
      else (Returns tt, memory_instance)
  end.

(** [close_memory()] *)
Definition close_memory (memory_instance : option Memory) : option Memory :=
  match memory_instance with
  | Some _ => None
  | None => memory_instance
  end.

(** [lifespan(app)] up to its [yield]: the process starts with the instance
    unset. *)
Definition startup (deps : Dependencies) (environ : Environ)
  : Outcome unit * option Memory :=
  initialize_memory deps environ None.

End Lifecycle.

(** ** Outcomes of handlers *)

(** The outcome of a handler that wraps what goes wrong: a returned model,
    or an [HTTPException] with status 500 or 503. *)
Definition handled {A} (o : Outcome A) : Prop :=
  match o with
  | Returns _ => True
  | Raises (HTTPException sc _) => sc = 500%Z \/ sc = 503%Z
  | Raises _ => False
  end.

(** A response with one of the statuses 200, 500 and 503. *)
Definition answered (r : JSONResponse) : Prop :=
  status_code r = 200%Z \/ status_code r = 500%Z \/ status_code r = 503%Z.


(** The response to a request whose body does not fit the model. *)
Definition unprocessable (field : string) : JSONResponse :=
  {| status_code := 422;
     content :=
       PyDict [("detail",
                PyList [PyDict [("loc", PyList [PyStr "body";
                                                PyStr field])]])] |}.

(** The response of a handler that caught the exception [e] of a library
    call. *)
Definition failed_response (what : string) (e : PyExc) : JSONResponse :=
  {| status_code := 500;
     content := PyDict [("detail", PyStr (what ++ str_exc e))] |}.

(** The item a bare string normalizes to. *)
Definition text_item (text : string) : SearchResult.t :=
  SearchResult.mk text float_1_0 (Some []).

(** The part of Python's class hierarchy the examples use: a class is a
    subclass of itself, and [ModuleNotFoundError] and [ZipImportError] are
    subclasses of [ImportError]. *)
Definition example_issubclass (cls base : string) : bool :=
  String.eqb cls base
  || (String.eqb base "ImportError"
      && (String.eqb cls "ModuleNotFoundError"
          || String.eqb cls "ZipImportError")).


(** Start-up dependencies for the examples: everything is available. *)
Definition example_up : Lifecycle.Dependencies :=
  {| Lifecycle.import_modules := None;
     Lifecycle.connect := fun _ => None;
     Lifecycle.from_config := fun _ => Returns example_memory;
     Lifecycle.issubclass := example_issubclass |}.



(** A library for the examples whose every call raises. *)
Definition example_failing : Memory :=
  fun _ _ => Raises (Exception "RuntimeError" "store unreachable").

(** A library for the examples whose second [delete] raises. *)
Definition example_delete_fails : Memory :=
  fun history call =>
    match call with
    | CallDelete (PyStr "m2") => Raises (Exception "RuntimeError" "locked")
    | CallGetAll _ _ =>
        Returns (PyList [PyDict [("id", PyStr "m1")];
                         PyDict [("id", PyStr "m2")];
                         PyDict [("id", PyStr "m3")]])
    | _ => Returns PyNone
    end.

(** A library for the examples whose [search] answers in the mapping shape
    of newer versions. *)
Definition example_mapping_shape : Memory :=
  fun _ _ =>
    Returns (PyDict [("results", PyList [PyDict [("memory", PyStr "tea")]]);
                     ("relations", PyList [])]).

(** ** The unset adapter, the health report and the top-level handler *)

(** C3: with the adapter unset, each of the six memory operations answers
    503 "Memory service not initialized" and leaves the history of library
    calls as it was (no method of the library is invoked, nothing changes),
    while the health endpoint answers 200 with status "degraded". *)
Theorem unset_adapter_answers_503 :
  forall (P : Pydantic) (environ : Environ) (history : list Call)
         (memory : MemoryInput.t) (search : SearchInput.t)
         (batch : BatchMemoryInput.t) (user_id memory_id : string)
         (limit : option Z),
    serve environ SuccessResponse_json (add_memory None memory) history
    = (unavailable, history)
    /\ serve environ SearchResponse_json (search_memory P None search) history
       = (unavailable, history)
    /\ GET_memory P environ None user_id limit history
       = (unavailable, history)
    /\ DELETE_memory environ None memory_id history = (unavailable, history)
    /\ DELETE_memory_user environ None user_id history
       = (unavailable, history)
    /\ serve environ SuccessResponse_json (add_memories_batch None batch)
             history
       = (unavailable, history)
    /\ snd (GET_health environ None history) = history
    /\ status_code (fst (GET_health environ None history)) = 200%Z
    /\ at_path ["status"] (content (fst (GET_health environ None history)))
       = PyStr "degraded".
Proof.
  intros. repeat split; reflexivity.
Qed.

(** C5: the health endpoint answers 200 whatever the adapter, the
    environment and the history are; its status is "degraded" when the
    adapter is unset and "healthy" when it is set, the connection status is
    "connected" exactly when the adapter is set, and the report carries the
    configured vector-store URL and collection name. *)
Theorem health_check_reports_adapter :
  forall (environ : Environ) (memory_instance : option Memory)
         (history : list Call),
    let response := fst (GET_health environ memory_instance history) in
    let is_set := match memory_instance with Some _ => true | None => false end in
    status_code response = 200%Z
    /\ snd (GET_health environ memory_instance history) = history
    /\ at_path ["status"] (content response)
       = PyStr (if is_set then "healthy" else "degraded")
    /\ at_path ["connections"; "qdrant"; "url"] (content response)
       = PyStr (getenv_or environ "QDRANT_URL" "http://localhost:6333")
    /\ (at_path ["connections"; "qdrant"; "status"] (content response)
        = PyStr "connected" <-> memory_instance <> None)
    /\ at_path ["connections"; "qdrant"; "status"] (content response)
       = PyStr (if is_set then "connected" else "disconnected")
    /\ at_path ["connections"; "collection"] (content response)
       = PyStr (getenv_or environ "MEM0_COLLECTION" "user_memories").
Proof.
  intros environ memory_instance history response is_set.
  subst response is_set.
  destruct memory_instance as [inst |]; cbn.
  - repeat split; try reflexivity; congruence.
  - repeat split; try reflexivity; intro H; [discriminate H | congruence].
Qed.

(** The debug flag as the top-level handler reads it:
    [os.getenv("DEBUG") == "true"]. *)
Lemma debug_flag_unset :
  forall (environ : Environ) (exc : PyExc),
    getenv environ "DEBUG" <> Some "true" ->
    at_path ["detail"] (content (global_exception_handler environ exc))
    = PyNone.
Proof.
  intros environ exc Hoff. unfold global_exception_handler. cbn.
  destruct (getenv environ "DEBUG") as [v |] eqn:Hv; [| reflexivity].
  destruct (String.eqb v "true") eqn:Heq; [| reflexivity].
  apply String.eqb_eq in Heq. subst v. contradiction.
Qed.

(** C7: the top-level handler answers 500 with the generic error text; the
    detail is the exception's message when DEBUG is "true" and null
    otherwise, so that with the flag unset the responses to any two
    exceptions are equal. *)
Theorem global_handler_hides_detail :
  forall (environ : Environ) (exc : PyExc),
    status_code (global_exception_handler environ exc) = 500%Z
    /\ at_path ["error"] (content (global_exception_handler environ exc))
       = PyStr "Internal server error"
    /\ (getenv environ "DEBUG" = Some "true" ->
        at_path ["detail"] (content (global_exception_handler environ exc))
        = PyStr (str_exc exc))
    /\ (getenv environ "DEBUG" <> Some "true" ->
        at_path ["detail"] (content (global_exception_handler environ exc))
        = PyNone
        /\ forall exc' : PyExc,
            global_exception_handler environ exc
            = global_exception_handler environ exc').
Proof.
  intros environ exc. repeat split.
  - intro Hon. unfold global_exception_handler. cbn. rewrite Hon. reflexivity.
  - apply debug_flag_unset; assumption.
  - intro exc'. unfold global_exception_handler.
    destruct (getenv environ "DEBUG") as [v |] eqn:Hv; [| reflexivity].
    destruct (String.eqb v "true") eqn:Heq; [| reflexivity].
    apply String.eqb_eq in Heq. subst v. contradiction.
Qed.

(** ** Batch add *)

Lemma successes_app :
  forall xs ys, successes (xs ++ ys) = successes xs ++ successes ys.
Proof.
  induction xs as [| [v | e] xs IH]; intros ys; simpl;
    rewrite ?IH; reflexivity.
Qed.

Lemma failures_app :
  forall xs ys i,
    failures i (xs ++ ys)
    = failures i xs ++ failures (i + List.length xs) ys.
Proof.
  induction xs as [| [v | e] xs IH]; intros ys i; simpl.
  - rewrite Nat.add_0_r. reflexivity.
  - rewrite IH. rewrite Nat.add_succ_r. reflexivity.
  - rewrite IH. rewrite Nat.add_succ_r. reflexivity.
Qed.

Lemma all_succeeded :
  forall outcomes i,
    Forall succeeded outcomes ->
    List.length (successes outcomes) = List.length outcomes
    /\ failures i outcomes = [].
Proof.
  induction outcomes as [| o rest IH]; intros i Hall.
  - split; reflexivity.
  - inversion Hall as [| ? ? [v Hv] Hrest]; subst.
    destruct (IH (S i) Hrest) as [Hlen Hnone]. simpl.
    split; [rewrite Hlen; reflexivity | exact Hnone].
Qed.

Lemma add_outcomes_length :
  forall inst memories history,
    List.length (add_outcomes inst memories history) = List.length memories.
Proof.
  induction memories as [| m rest IH]; intros history; simpl;
    [| rewrite IH]; reflexivity.
Qed.

Lemma successes_failures_length :
  forall outcomes i,
    (List.length (successes outcomes) + List.length (failures i outcomes)
     = List.length outcomes)%nat.
Proof.
  induction outcomes as [| [v | e] rest IH]; intros i; simpl.
  - reflexivity.
  - rewrite IH. reflexivity.
  - rewrite Nat.add_succ_r, IH. reflexivity.
Qed.

(** The loop appends to the two lists exactly what the outcomes say, and
    calls the library once per item. *)
Lemma batch_each_outcomes :
  forall inst memories i memory_ids errors history,
    batch_each inst memories i memory_ids errors history
    = (Returns (memory_ids
                  ++ successes (add_outcomes inst memories history),
                errors ++ failures i (add_outcomes inst memories history)),
       history ++ map add_call memories).
Proof.
  induction memories as [| m rest IH]; intros i memory_ids errors history.
  - simpl. unfold ret. rewrite !app_nil_r. reflexivity.
  - simpl. unfold bind at 1. unfold try_except, bind, invoke, ret.
    fold (add_call m).
    destruct (inst history (add_call m)) as [v | e]; simpl;
      rewrite IH; rewrite <- !app_assoc; reflexivity.
Qed.

(** C4: with the adapter set, batch add calls the library once for every
    item, in input order and whatever the earlier items did; the response
    lists the ids of the items that succeeded, in input order, and one error
    entry with index and message per item that failed; success is true
    exactly when no item failed.  When all items succeed there are as many
    ids as items and no errors; when exactly one fails there is one id less
    and one error entry with that item's index. *)
Theorem batch_add_attempts_every_item :
  forall (inst : Memory) (batch : BatchMemoryInput.t) (history : list Call),
    let memories := BatchMemoryInput.memories batch in
    let outcomes := add_outcomes inst memories history in
    let memory_ids := successes outcomes in
    let errors := failures 0 outcomes in
    add_memories_batch (Some inst) batch history
    = (Returns
         (SuccessResponse.mk
            (Nat.eqb (List.length errors) 0)
            (Some ("Added " ++ Py.str_of_nat (List.length memory_ids)
                   ++ " memories")%string)
            (Some [("memory_ids", PyList memory_ids);
                   ("errors",
                    match errors with [] => PyNone | _ => PyList errors end)])),
       history ++ map add_call memories)
    /\ List.length outcomes = List.length memories
    /\ (List.length memory_ids + List.length errors
        = List.length memories)%nat
    /\ (Nat.eqb (List.length errors) 0 = true <-> errors = [])
    /\ (Forall succeeded outcomes ->
        List.length memory_ids = List.length memories /\ errors = [])
    /\ (forall before e after,
           outcomes = before ++ Raises e :: after ->
           Forall succeeded before -> Forall succeeded after ->
           S (List.length memory_ids) = List.length memories
           /\ errors = [error_entry (List.length before) e]).
Proof.
  intros inst batch history memories outcomes memory_ids errors.
  assert (Hlen : List.length outcomes = List.length memories)
    by apply add_outcomes_length.
  split; [| split; [| split; [| split; [| split]]]].
  - unfold add_memories_batch, bind.
    rewrite batch_each_outcomes. fold memories outcomes. simpl.
    fold memory_ids errors. unfold ret. destruct errors; reflexivity.
  - exact Hlen.
  - rewrite <- Hlen. apply successes_failures_length.
  - destruct errors; simpl; split; intro H; try reflexivity; discriminate H.
  - intro Hall. destruct (all_succeeded 0 Hall) as [Hids Hnone].
    split; [fold memory_ids in Hids; congruence | exact Hnone].
  - intros before e after Hshape Hbefore Hafter.
    destruct (all_succeeded 0 Hbefore) as [Hb1 Hb2].
    destruct (all_succeeded (S (List.length before)) Hafter) as [Ha1 Ha2].
    subst memory_ids errors. rewrite Hshape in *.
    rewrite successes_app, failures_app. simpl.
    rewrite Hb2, Ha2. split; [| reflexivity].
    rewrite <- Hlen, !length_app. simpl.
    rewrite Hb1, Ha1. lia.
Qed.

(** ** Delete all memories of a user *)

(** What [delete_user_memories] does, step by step: one [get_all], the list
    of memories in its result, the loop, and the response. *)
Lemma delete_user_memories_run :
  forall (inst : Memory) (user_id : string) (history : list Call),
    let fetched := history ++ [CallGetAll user_id None] in
    let failed (e : PyExc) : Outcome SuccessResponse.t :=
      Raises (HTTPException 500 ("Failed to delete memories: " ++ str_exc e))
    in
    delete_user_memories (Some inst) user_id history
    = match inst history (CallGetAll user_id None) with
      | Raises e => (failed e, fetched)
      | Returns raw =>
          match (if Py.truthy (memories_of raw)
                 then PyOps.iter (memories_of raw) else Returns [])
          with
          | Raises e => (failed e, fetched)
          | Returns items =>
              match delete_each inst items 0 fetched with
              | (Returns n, history') =>
                  (Returns (deleted_response n), history')
              | (Raises e, history') => (failed e, history')
              end
          end
      end.
Proof.
  intros inst user_id history fetched failed.
  unfold delete_user_memories, try_except, bind, invoke, lift, ret,
    internal_error, raise.
  destruct (inst history (CallGetAll user_id None)) as [raw | e];
    [| reflexivity].
  destruct (Py.truthy (memories_of raw)); [| reflexivity].
  destruct (PyOps.iter (memories_of raw)) as [items | e]; [| reflexivity].
  fold fetched.
  destruct (delete_each inst items 0 fetched) as [[n | e] history'];
    reflexivity.
Qed.

(** One turn of the loop. *)
Lemma delete_each_cons :
  forall (inst : Memory) (mem : PyVal) (rest : list PyVal) (n : nat)
         (history : list Call),
    delete_each inst (mem :: rest) n history
    = if Py.truthy (mem_id_of mem) then
        match inst history (CallDelete (mem_id_of mem)) with
        | Returns _ =>
            delete_each inst rest (n + 1)
                        (history ++ [CallDelete (mem_id_of mem)])
        | Raises e => (Raises e, history ++ [CallDelete (mem_id_of mem)])
        end
      else delete_each inst rest n history.
Proof.
  intros. simpl. destruct (Py.truthy (mem_id_of mem)); [| reflexivity].
  unfold bind at 1. unfold invoke.
  destruct (inst history (CallDelete (mem_id_of mem))); reflexivity.
Qed.

(** The loop deletes a prefix of the ids of the fetched entries, in their
    order; when it completes it has deleted all of them and counted each. *)
Lemma delete_each_calls :
  forall (inst : Memory) (items : list PyVal) (n : nat) (history : list Call),
    (exists k,
        snd (delete_each inst items n history)
        = history ++ map CallDelete (firstn k (ids_of items)))
    /\ (forall m,
           fst (delete_each inst items n history) = Returns m ->
           m = (n + List.length (ids_of items))%nat
           /\ snd (delete_each inst items n history)
              = history ++ map CallDelete (ids_of items)).
Proof.
  induction items as [| mem rest IH]; intros n history.
  - split.
    + exists 0%nat. simpl. rewrite app_nil_r. reflexivity.
    + intros m Hm. simpl in *. unfold ret in *. simpl in *.
      inversion Hm; subst. rewrite Nat.add_0_r, app_nil_r. split; reflexivity.
  - rewrite delete_each_cons. unfold ids_of in *. simpl.
    destruct (Py.truthy (mem_id_of mem)) eqn:Hid.
    + destruct (inst history (CallDelete (mem_id_of mem))) as [v | e].
      * destruct (IH (n + 1)%nat (history ++ [CallDelete (mem_id_of mem)]))
          as [[k Hk] Hdone].
        split.
        -- exists (S k). rewrite Hk. simpl. rewrite <- app_assoc. reflexivity.
        -- intros m Hm. destruct (Hdone m Hm) as [Hcount Htrace].
           split; [simpl; lia |].
           rewrite Htrace. simpl. rewrite <- app_assoc. reflexivity.
      * split.
        -- exists 1%nat. reflexivity.
        -- intros m Hm. simpl in Hm. discriminate Hm.
    + apply IH.
Qed.

(** When no delete call raises, the loop completes. *)
Lemma delete_each_completes :
  forall (inst : Memory) (items : list PyVal) (n : nat) (history : list Call),
    (forall h id, exists v, inst h (CallDelete id) = Returns v) ->
    exists m, fst (delete_each inst items n history) = Returns m.
Proof.
  induction items as [| mem rest IH]; intros n history Hok.
  - exists n. reflexivity.
  - rewrite delete_each_cons. destruct (Py.truthy (mem_id_of mem)).
    + destruct (Hok history (mem_id_of mem)) as [v Hv]. rewrite Hv.
      apply IH. exact Hok.
    + apply IH. exact Hok.
Qed.

(** C6: with the adapter set, delete-all-for-user calls [get_all] for the
    user once and then only [delete], one id at a time; when the fetched
    list is empty it answers success with [deleted_count] 0 and deletes
    nothing; whenever it answers success the count is the number of
    [delete] calls it made; and when no [delete] raises it deletes every
    fetched id and answers success. *)
Theorem delete_user_memories_fetches_then_deletes :
  forall (inst : Memory) (user_id : string) (history : list Call),
    let run := delete_user_memories (Some inst) user_id history in
    let fetch := CallGetAll user_id None in
    (exists ids, snd run = history ++ fetch :: map CallDelete ids)
    /\ (forall raw,
           inst history fetch = Returns raw ->
           memories_of raw = PyList [] ->
           run = (Returns (deleted_response 0), history ++ [fetch])
           /\ SuccessResponse.success (deleted_response 0) = true
           /\ SuccessResponse.data (deleted_response 0)
              = Some [("deleted_count", PyInt 0)])
    /\ (forall response,
           fst run = Returns response ->
           exists ids,
             snd run = history ++ fetch :: map CallDelete ids
             /\ response = deleted_response (List.length ids))
    /\ (forall raw items,
           inst history fetch = Returns raw ->
           memories_of raw = PyList items ->
           (forall h id, exists v, inst h (CallDelete id) = Returns v) ->
           run = (Returns (deleted_response (List.length (ids_of items))),
                  history ++ fetch :: map CallDelete (ids_of items))).
Proof.
  intros inst user_id history run fetch. subst run.
  rewrite delete_user_memories_run. fold fetch.
  split; [| split; [| split]].
  - destruct (inst history fetch) as [raw | e].
    + destruct (if Py.truthy (memories_of raw)
                then PyOps.iter (memories_of raw) else Returns [])
        as [items | e].
      * destruct (delete_each_calls inst items 0 (history ++ [fetch]))
          as [[k Hk] _].
        exists (firstn k (ids_of items)).
        destruct (delete_each inst items 0 (history ++ [fetch]))
          as [[n | e] history']; simpl in *; subst history';
          rewrite <- app_assoc; reflexivity.
      * exists []. reflexivity.
    + exists []. reflexivity.
  - intros raw Hraw Hempty. rewrite Hraw, Hempty. simpl.
    repeat split; reflexivity.
  - intros response Hok.
    destruct (inst history fetch) as [raw | e]; [| discriminate Hok].
    destruct (if Py.truthy (memories_of raw)
              then PyOps.iter (memories_of raw) else Returns [])
      as [items | e]; [| discriminate Hok].
    destruct (delete_each_calls inst items 0 (history ++ [fetch]))
      as [_ Hdone].
    destruct (delete_each inst items 0 (history ++ [fetch]))
      as [[n | e] history']; [| discriminate Hok].
    destruct (Hdone n eq_refl) as [Hcount Htrace]. simpl in *.
    exists (ids_of items). inversion Hok; subst.
    rewrite <- app_assoc. split; reflexivity.
  - intros raw items Hraw Hitems Hdeletes. rewrite Hraw, Hitems.
    assert (Hiter : (if Py.truthy (PyList items)
                     then PyOps.iter (PyList items) else Returns [])
                    = Returns items)
      by (destruct items; reflexivity).
    rewrite Hiter.
    destruct (delete_each_completes inst items 0 (history ++ [fetch])
                                    Hdeletes) as [m Hm].
    destruct (delete_each_calls inst items 0 (history ++ [fetch]))
      as [_ Hdone].
    destruct (Hdone m Hm) as [Hcount Htrace].
    destruct (delete_each inst items 0 (history ++ [fetch]))
      as [[n | e] history']; simpl in *; [| discriminate Hm].
    inversion Hm; subst. rewrite <- app_assoc. reflexivity.
Qed.

Lemma delete_each_skips :
  forall (inst : Memory) (before : list PyVal) (mem : PyVal)
         (after : list PyVal) (n : nat) (history : list Call),
    Py.truthy (mem_id_of mem) = false ->
    delete_each inst (before ++ mem :: after) n history
    = delete_each inst (before ++ after) n history.
Proof.
  induction before as [| first before IH]; intros mem after n history Hid.
  - simpl app. rewrite delete_each_cons, Hid. reflexivity.
  - simpl app. rewrite !delete_each_cons.
    destruct (Py.truthy (mem_id_of first)).
    + destruct (inst history (CallDelete (mem_id_of first)));
        [apply IH; exact Hid | reflexivity].
    + apply IH; exact Hid.
Qed.

(** Two instances that answer alike from [history] on run the loop alike. *)
Lemma delete_each_agree :
  forall (inst inst' : Memory) (items : list PyVal) (n : nat)
         (history : list Call),
    (forall later c, inst' (history ++ later) c = inst (history ++ later) c) ->
    delete_each inst' items n history = delete_each inst items n history.
Proof.
  induction items as [| mem rest IH]; intros n history Hsame.
  - reflexivity.
  - rewrite !delete_each_cons.
    pose proof (Hsame [] (CallDelete (mem_id_of mem))) as Hnow.
    rewrite app_nil_r in Hnow. rewrite Hnow.
    destruct (Py.truthy (mem_id_of mem)).
    + destruct (inst history (CallDelete (mem_id_of mem))); [| reflexivity].
      apply IH. intros later c. rewrite <- app_assoc. apply Hsame.
    + apply IH. exact Hsame.
Qed.

Lemma history_grows :
  forall (history later : list Call) (c : Call),
    (history ++ [c]) ++ later <> history.
Proof.
  intros history later c Heq.
  apply (f_equal (@List.length Call)) in Heq.
  rewrite !length_app in Heq. simpl in Heq. lia.
Qed.

Lemma get_absent :
  forall (d : dict) (key : string) (default : PyVal),
    Py.contains d key = false -> Py.get d key default = default.
Proof.
  induction d as [| [k v] rest IH]; intros key default Habsent; simpl in *.
  - reflexivity.
  - destruct (String.eqb k key); [discriminate Habsent | apply IH; assumption].
Qed.

Lemma no_id_is_falsy :
  forall mem : PyVal, no_id mem -> Py.truthy (mem_id_of mem) = false.
Proof.
  intros mem [d Hd | cls attrs Ha | m Hm].
  - simpl. rewrite get_absent by assumption. reflexivity.
  - simpl. rewrite get_absent by assumption. reflexivity.
  - assumption.
Qed.

Lemma iter_of_list :
  forall items : list PyVal,
    (if Py.truthy (PyList items) then PyOps.iter (PyList items)
     else Returns [])
    = Returns items.
Proof. destruct items; reflexivity. Qed.

(** C10: a fetched entry without an id (a mapping without the key, an object
    without the attribute, or a falsy id) is skipped: the handler answers
    and calls the library exactly as it does when [get_all] returns the same
    memories without that entry, so the entry is neither deleted nor counted
    and causes no error. *)
Theorem entries_without_id_are_skipped :
  forall (inst inst' : Memory) (user_id : string) (history : list Call)
         (raw raw' : PyVal) (before : list PyVal) (mem : PyVal)
         (after : list PyVal),
    no_id mem ->
    inst history (CallGetAll user_id None) = Returns raw ->
    memories_of raw = PyList (before ++ mem :: after) ->
    inst' history (CallGetAll user_id None) = Returns raw' ->
    memories_of raw' = PyList (before ++ after) ->
    (forall h c, h <> history -> inst' h c = inst h c) ->
    delete_user_memories (Some inst) user_id history
    = delete_user_memories (Some inst') user_id history
    /\ ids_of (before ++ mem :: after) = ids_of (before ++ after).
Proof.
  intros inst inst' user_id history raw raw' before mem after
         Hno Hraw Hmems Hraw' Hmems' Hsame.
  apply no_id_is_falsy in Hno.
  split.
  - rewrite !delete_user_memories_run.
    rewrite Hraw, Hraw', Hmems, Hmems', !iter_of_list.
    rewrite delete_each_skips by exact Hno.
    rewrite (@delete_each_agree inst inst').
    + reflexivity.
    + intros later c. apply Hsame. apply history_grows.
  - unfold ids_of. rewrite !map_app, !filter_app. simpl. rewrite Hno.
    reflexivity.
Qed.

(** ** Search *)

Lemma pydantic_strict_laws : PydanticLaws pydantic_strict.
Proof. constructor; reflexivity. Qed.

(** What [search_memory] does, step by step. *)
Lemma search_memory_run :
  forall (P : Pydantic) (inst : Memory) (search : SearchInput.t)
         (history : list Call),
    let call := CallSearch (SearchInput.query search)
                           (SearchInput.user_id search)
                           (SearchInput.limit search) in
    let failed (e : PyExc) : Outcome SearchResponse.t :=
      Raises (HTTPException 500 ("Failed to search memory: " ++ str_exc e))
    in
    search_memory P (Some inst) search history
    = match inst history call with
      | Raises e => (failed e, history ++ [call])
      | Returns results =>
          match (if Py.truthy results then PyOps.len results
                 else Returns 0%nat)
          with
          | Raises e => (failed e, history ++ [call])
          | Returns _ =>
              match (if Py.truthy results
                     then and_then (PyOps.iter results)
                                   (each (format_result P))
                     else Returns [])
              with
              | Raises e => (failed e, history ++ [call])
              | Returns formatted =>
                  (Returns (SearchResponse.mk true formatted
                                              (List.length formatted)),
                   history ++ [call])
              end
          end
      end.
Proof.
  intros P inst search history call failed.
  unfold search_memory, try_except, bind, invoke, lift, ret,
    internal_error, raise.
  fold call.
  destruct (inst history call) as [results | e]; [| reflexivity].
  destruct (Py.truthy results).
  - destruct (PyOps.len results) as [n | e]; [| reflexivity].
    destruct (and_then (PyOps.iter results) (each (format_result P)));
      reflexivity.
  - reflexivity.
Qed.

Lemma each_length :
  forall {A B : Type} (f : A -> Outcome B) (xs : list A) (ys : list B),
    each f xs = Returns ys -> List.length ys = List.length xs.
Proof.
  induction xs as [| x rest IH]; intros ys Hys; simpl in Hys.
  - inversion Hys. reflexivity.
  - destruct (f x) as [y | e]; simpl in Hys; [| discriminate Hys].
    destruct (each f rest) as [ys' | e]; simpl in Hys; [| discriminate Hys].
    inversion Hys. simpl. rewrite (IH ys' eq_refl). reflexivity.
Qed.

Lemma chars_length :
  forall s : string, List.length (Py.chars s) = String.length s.
Proof.
  induction s as [| c rest IH]; simpl; [| rewrite IH]; reflexivity.
Qed.

Lemma iter_length :
  forall (v : PyVal) (items : list PyVal),
    PyOps.iter v = Returns items ->
    PyOps.len v = Returns (List.length items).
Proof.
  intros v items Hiter.
  destruct v; simpl in *; try discriminate Hiter; inversion Hiter; subst.
  - rewrite chars_length. reflexivity.
  - reflexivity.
  - rewrite length_map. reflexivity.
Qed.

Lemma falsy_has_no_entries :
  forall v : PyVal, Py.truthy v = false -> raw_entries v = 0%nat.
Proof.
  intros v Hfalsy. unfold raw_entries.
  destruct v as [| b | n | x | s | items | entries | cls attrs];
    simpl in *; try reflexivity.
  - destruct s; [reflexivity | discriminate Hfalsy].
  - destruct items; [reflexivity | discriminate Hfalsy].
  - destruct entries; [reflexivity | discriminate Hfalsy].
Qed.

(** X22: a search that succeeds reports a count equal to the number of
    result items it returns, which is the number of entries the library
    returned for the one [search] call; so the count is at most the limit
    whenever the library returned at most that many entries. *)
Theorem search_count_is_number_of_entries :
  forall (P : Pydantic) (inst : Memory) (search : SearchInput.t)
         (history history' : list Call) (response : SearchResponse.t),
    search_memory P (Some inst) search history
    = (Returns response, history') ->
    let call := CallSearch (SearchInput.query search)
                           (SearchInput.user_id search)
                           (SearchInput.limit search) in
    SearchResponse.success response = true
    /\ SearchResponse.count response
       = List.length (SearchResponse.results response)
    /\ history' = history ++ [call]
    /\ exists raw,
        inst history call = Returns raw
        /\ SearchResponse.count response = raw_entries raw
        /\ ((Z.of_nat (raw_entries raw) <= SearchInput.limit search)%Z ->
            (Z.of_nat (SearchResponse.count response)
             <= SearchInput.limit search)%Z).
Proof.
  intros P inst search history history' response Hrun call.
  rewrite search_memory_run in Hrun. fold call in Hrun.
  destruct (inst history call) as [raw | e]; [| discriminate Hrun].
  destruct (Py.truthy raw) eqn:Htruthy.
  - destruct (PyOps.len raw) as [n | e] eqn:Hlen; [| discriminate Hrun].
    destruct (PyOps.iter raw) as [items | e] eqn:Hiter; simpl in Hrun;
      [| discriminate Hrun].
    destruct (each (format_result P) items) as [formatted | e] eqn:Heach;
      [| discriminate Hrun].
    inversion Hrun; subst. simpl.
    apply each_length in Heach. apply iter_length in Hiter.
    assert (Hcount : List.length formatted = raw_entries raw)
      by (unfold raw_entries; rewrite Hiter; exact Heach).
    repeat split; try reflexivity.
    exists raw. repeat split; try assumption. intro Hle. rewrite Hcount.
    exact Hle.
  - inversion Hrun; subst. simpl.
    repeat split; try reflexivity.
    exists raw. rewrite (falsy_has_no_entries _ Htruthy).
    repeat split; try reflexivity. intro Hle. exact Hle.
Qed.

(** C8, the code at a failing input: with limit 1 and a library that
    returns two hits, the search succeeds with both and count 2, above the
    limit its docstring calls the maximum number of results. *)
Lemma search_count_exceeds_limit :
  let body := PyDict [("query", PyStr "tea"); ("user_id", PyStr "u1");
                      ("limit", PyInt 1)] in
  let response :=
    fst (POST_memory_search pydantic_strict [] (Some example_memory) body [])
  in
  SearchInput.validate pydantic_strict body
  = Returns (SearchInput.mk "tea" "u1" 1)
  /\ status_code response = 200%Z
  /\ at_path ["count"] (content response) = PyInt 2
  /\ ~ (2 <= 1)%Z.
Proof.
  cbv zeta. repeat split; try reflexivity. lia.
Qed.

(** The fields read from a mapping and from an object with the same
    content are the same. *)
Lemma result_fields_alike :
  forall (d attrs : dict) (cls : string),
    same_content d attrs ->
    Py.contains attrs "memory" = true ->
    result_fields (PyDict d) = result_fields (PyObj cls attrs).
Proof.
  intros d attrs cls Hsame Hmemory.
  unfold result_fields. simpl. rewrite Hmemory.
  rewrite !Hsame; [reflexivity | | |]; simpl; auto.
Qed.

(** X21: what the search loop does with each shape.  A mapping and an
    object (one that has a [memory] attribute) with the same content
    normalize to the same item; in both shapes a missing score becomes 0.0
    and missing metadata becomes absent; the branch for a bare string sets
    the text only, so the item keeps the loop's initial score 1.0 and empty
    metadata mapping; and a search whose entries all normalize returns their
    items in order. *)
Theorem mapping_and_object_normalize_alike :
  forall (P : Pydantic),
    PydanticLaws P ->
    forall (d attrs : dict) (cls text : string),
      (same_content d attrs ->
       Py.contains attrs "memory" = true ->
       format_result P (PyDict d) = format_result P (PyObj cls attrs))
      /\ (Py.get d "memory" PyNone = PyStr text ->
          Py.contains d "score" = false ->
          Py.contains d "metadata" = false ->
          format_result P (PyDict d)
          = Returns (SearchResult.mk text float_0_0 None))
      /\ (Py.get attrs "memory" PyNone = PyStr text ->
          Py.contains attrs "score" = false ->
          Py.contains attrs "metadata" = false ->
          format_result P (PyObj cls attrs)
          = Returns (SearchResult.mk text float_0_0 None))
      /\ format_result P (PyStr text)
         = Returns (SearchResult.mk text float_1_0 (Some []))
      /\ (forall (inst : Memory) (search : SearchInput.t)
                 (history : list Call) (entries : list PyVal)
                 (items : list SearchResult.t),
             inst history (CallSearch (SearchInput.query search)
                                      (SearchInput.user_id search)
                                      (SearchInput.limit search))
             = Returns (PyList entries) ->
             each (format_result P) entries = Returns items ->
             fst (search_memory P (Some inst) search history)
             = Returns (SearchResponse.mk true items (List.length items))).
Proof.
  intros P [Hstr _ Hfloat Hnone Hdict] d attrs cls text.
  assert (Hpresent : forall (m : dict),
             Py.get m "memory" PyNone = PyStr text ->
             forall default, Py.get m "memory" default = PyStr text
                             /\ Py.contains m "memory" = true).
  { induction m as [| [k v] rest IH]; simpl; intros Hget default.
    - discriminate Hget.
    - destruct (String.eqb k "memory"); [split; [exact Hget | reflexivity] |].
      apply IH. exact Hget. }
  split; [| split; [| split; [| split]]].
  - intros Hsame Hmemory. unfold format_result.
    rewrite (result_fields_alike cls Hsame Hmemory). reflexivity.
  - intros Hmemory Hscore Hmeta. unfold format_result, result_fields. simpl.
    destruct (Hpresent d Hmemory (PyStr EmptyString)) as [Hget _].
    rewrite Hget, !get_absent by assumption.
    unfold SearchResult.new. rewrite Hstr, Hfloat, Hnone. reflexivity.
  - intros Hmemory Hscore Hmeta. unfold format_result, result_fields. simpl.
    destruct (Hpresent attrs Hmemory (PyStr EmptyString)) as [Hget Hhas].
    rewrite Hhas, Hget, !get_absent by assumption.
    unfold SearchResult.new. rewrite Hstr, Hfloat, Hnone. reflexivity.
  - unfold format_result, result_fields. simpl.
    unfold SearchResult.new. rewrite Hstr, Hfloat, Hdict. reflexivity.
  - intros inst search history entries items Hraw Heach.
    rewrite search_memory_run. rewrite Hraw.
    destruct entries as [| entry rest].
    + simpl in *. inversion Heach. reflexivity.
    + change (Py.truthy (PyList (entry :: rest))) with true. cbv iota.
      change (PyOps.len (PyList (entry :: rest)))
        with (Returns (A := nat) (List.length (entry :: rest))).
      change (PyOps.iter (PyList (entry :: rest)))
        with (Returns (entry :: rest)).
      unfold and_then at 1. rewrite Heach. reflexivity.
Qed.

(** C1, the code at a failing input: the same text as a mapping and as a
    bare string gives two different items.  The mapping gets score 0.0 and
    no metadata, as the claim says for a missing score and missing metadata;
    the bare string gets score 1.0 and an empty metadata mapping. *)
Lemma bare_string_normalizes_differently :
  format_result pydantic_strict (PyDict [("memory", PyStr "likes tea")])
  = Returns (SearchResult.mk "likes tea" float_0_0 None)
  /\ format_result pydantic_strict (PyStr "likes tea")
     = Returns (SearchResult.mk "likes tea" float_1_0 (Some []))
  /\ format_result pydantic_strict (PyDict [("memory", PyStr "likes tea")])
     <> format_result pydantic_strict (PyStr "likes tea").
Proof.
  split; [reflexivity | split; [reflexivity |]].
  intro Heq. vm_compute in Heq. discriminate Heq.
Qed.

(** ** Request validation *)

Lemma required_str_accepts :
  forall (P : Pydantic) (b : dict) (name s : string) (lo : Z)
         (hi : option Z),
    PydanticLaws P ->
    Py.contains b name = true ->
    Py.get b name PyNone = PyStr s ->
    (lo <= Z.of_nat (String.length s))%Z ->
    match hi with
    | Some h => (Z.of_nat (String.length s) <= h)%Z
    | None => True
    end ->
    required_str P b name lo hi = Returns s.
Proof.
  intros P b name s lo hi HP Hhas Hget Hlo Hhi.
  unfold required_str. rewrite Hhas, Hget, (as_str_str HP).
  apply Z.leb_le in Hlo. rewrite Hlo.
  destruct hi as [h |]; [| reflexivity].
  apply Z.leb_le in Hhi. rewrite Hhi. reflexivity.
Qed.

Lemma required_str_refuses_long :
  forall (P : Pydantic) (b : dict) (name s : string) (lo h : Z),
    PydanticLaws P ->
    Py.contains b name = true ->
    Py.get b name PyNone = PyStr s ->
    (h < Z.of_nat (String.length s))%Z ->
    required_str P b name lo (Some h) = Raises (body_error name).
Proof.
  intros P b name s lo h HP Hhas Hget Hlong.
  unfold required_str. rewrite Hhas, Hget, (as_str_str HP).
  apply Z.leb_gt in Hlong. rewrite Hlong.
  rewrite andb_false_r. reflexivity.
Qed.

(** C2, what the code does: the models of the endpoints bound the length of
    [content], [user_id] and [query] from below only.  A body whose strings
    are not empty is accepted however long they are and the library is
    called with them, while the schemas of [app/models/schemas.py] refuse
    the same body as soon as [content] exceeds 10000, [user_id] 100 or
    [query] 500 characters. *)
Theorem add_accepts_any_length :
  forall (P : Pydantic),
    PydanticLaws P ->
    forall (environ : Environ) (inst : Memory) (history : list Call)
           (content user_id query : string),
      (1 <= Z.of_nat (String.length content))%Z ->
      (1 <= Z.of_nat (String.length user_id))%Z ->
      (1 <= Z.of_nat (String.length query))%Z ->
      let body := PyDict [("content", PyStr content);
                          ("user_id", PyStr user_id)] in
      let search := PyDict [("query", PyStr query);
                            ("user_id", PyStr user_id)] in
      let added := POST_memory_add P environ (Some inst) body history in
      let searched :=
        POST_memory_search P environ (Some inst) search history in
      MemoryInput.validate P body
      = Returns (MemoryInput.mk content user_id (Some []))
      /\ snd added = history ++ [CallAdd content user_id []]
      /\ status_code (fst added) <> 422%Z
      /\ SearchInput.validate P search
         = Returns (SearchInput.mk query user_id 5)
      /\ snd searched = history ++ [CallSearch query user_id 5]
      /\ ((10000 < Z.of_nat (String.length content))%Z ->
          Schemas.MemoryCreate.validate P body
          = Raises (body_error "content"))
      /\ ((Z.of_nat (String.length content) <= 10000)%Z ->
          (100 < Z.of_nat (String.length user_id))%Z ->
          Schemas.MemoryCreate.validate P body
          = Raises (body_error "user_id"))
      /\ ((500 < Z.of_nat (String.length query))%Z ->
          Schemas.MemorySearch.validate P search
          = Raises (body_error "query")).
Proof.
  intros P HP environ inst history content user_id query
         Hcontent Huser Hquery body search added searched.
  assert (Hbody : MemoryInput.validate P body
                  = Returns (MemoryInput.mk content user_id (Some []))).
  { unfold MemoryInput.validate, body.
    rewrite (@required_str_accepts P _ "content" content 1 None HP);
      try reflexivity; try assumption; try exact I.
    rewrite (@required_str_accepts P _ "user_id" user_id 1 None HP);
      try reflexivity; try assumption; try exact I. }
  assert (Hsearch : SearchInput.validate P search
                    = Returns (SearchInput.mk query user_id 5)).
  { unfold SearchInput.validate, search.
    rewrite (@required_str_accepts P _ "query" query 1 None HP);
      try reflexivity; try assumption; try exact I.
    rewrite (@required_str_accepts P _ "user_id" user_id 1 None HP);
      try reflexivity; try assumption; try exact I. }
  split; [exact Hbody |].
  split; [| split; [| split; [exact Hsearch | split; [| split; [| split]]]]].
  - subst added. unfold POST_memory_add, serve, bind, lift.
    rewrite Hbody. unfold add_memory, try_except, bind, invoke. simpl.
    destruct (inst history (CallAdd content user_id [])); reflexivity.
  - subst added. unfold POST_memory_add, serve, bind, lift.
    rewrite Hbody. unfold add_memory, try_except, bind, invoke. simpl.
    destruct (inst history (CallAdd content user_id [])) as [v | e]; simpl;
      [destruct (jsonable v); simpl |]; intro Hcode; discriminate Hcode.
  - subst searched. unfold POST_memory_search, serve, bind, lift.
    rewrite Hsearch. rewrite search_memory_run. simpl.
    destruct (inst history (CallSearch query user_id 5)) as [raw | e];
      [| reflexivity].
    destruct (if Py.truthy raw then PyOps.len raw else Returns 0%nat);
      [| reflexivity].
    destruct (if Py.truthy raw
              then and_then (PyOps.iter raw) (each (format_result P))
              else Returns []); reflexivity.
  - intro Hlong. unfold Schemas.MemoryCreate.validate, body.
    rewrite (@required_str_refuses_long P _ "content" content 1 10000 HP);
      try reflexivity; assumption.
  - intros Hfits Hlong. unfold Schemas.MemoryCreate.validate, body.
    rewrite (@required_str_accepts P _ "content" content 1 (Some 10000%Z) HP);
      try reflexivity; try assumption.
    simpl and_then.
    rewrite (@required_str_refuses_long P _ "user_id" user_id 1 100 HP);
      try reflexivity; assumption.
  - intro Hlong. unfold Schemas.MemorySearch.validate, search.
    rewrite (@required_str_refuses_long P _ "query" query 1 500 HP);
      try reflexivity; assumption.
Qed.

(** ** Settings *)

Lemma with_default_absent :
  forall {A : Type} (coerce : string -> option A) (default value : A),
    Settings.with_default None coerce default = Some value ->
    value = default.
Proof. intros A coerce default value H. inversion H. reflexivity. Qed.

Lemma with_default_accepts :
  forall {A : Type} (raw : option string) (coerce : string -> option A)
         (default : A),
    (forall v, raw = Some v -> coerce v <> None) ->
    exists value, Settings.with_default raw coerce default = Some value.
Proof.
  intros A [v |] coerce default Hok; simpl.
  - destruct (coerce v) as [value |] eqn:Hv.
    + exists value. reflexivity.
    + exfalso. apply (Hok v eq_refl). exact Hv.
  - exists default. reflexivity.
Qed.

(** C9, as amended: the loader fails when no variable sets the embedding
    API key; when it succeeds the key is the variable's text and every
    optional field that no variable sets has its documented default; and
    when the text of every variable that is set fits its field's type and
    the [.env] file names fields only, it fails exactly when the key is not
    set. *)
Theorem settings_defaults_and_required_key :
  forall (C : Settings.Coercions) (src : Settings.Sources),
    let unset (field : string) := Settings.read src field = None in
    (unset "openai_api_key" -> exists e, Settings.load C src = Raises e)
    /\ (forall s : Settings.t,
           Settings.load C src = Returns s ->
           Settings.read src "openai_api_key"
           = Some (Settings.openai_api_key s)
           /\ (unset "qdrant_url" ->
               Settings.qdrant_url s = "http://localhost:6333")
           /\ (unset "qdrant_api_key" -> Settings.qdrant_api_key s = None)
           /\ (unset "openai_embedding_model" ->
               Settings.openai_embedding_model s = "text-embedding-3-small")
           /\ (unset "mem0_collection" ->
               Settings.mem0_collection s = "user_memories")
           /\ (unset "mem0_host" -> Settings.mem0_host s = "0.0.0.0")
           /\ (unset "mem0_port" -> Settings.mem0_port s = 8002%Z)
           /\ (unset "cors_origins" -> Settings.cors_origins s = ["*"])
           /\ (unset "log_level" -> Settings.log_level s = "info")
           /\ (unset "debug" -> Settings.debug s = false)
           /\ (unset "app_name" -> Settings.app_name s = "Mem0 Server")
           /\ (unset "app_version" -> Settings.app_version s = "1.0.0"))
    /\ (well_typed C src ->
        ((exists e, Settings.load C src = Raises e)
         <-> unset "openai_api_key")).
Proof.
  intros C src unset. subst unset. cbv beta.
  split; [| split].
  - intro Hkey. unfold Settings.load. rewrite Hkey.
    destruct (Settings.extra_inputs (Settings.dotenv src)); eexists;
      reflexivity.
  - intros s Hload. unfold Settings.load in Hload.
    destruct (Settings.extra_inputs (Settings.dotenv src));
      [discriminate Hload |].
    destruct (Settings.read src "openai_api_key") as [key |];
      [| discriminate Hload].
    destruct (Settings.with_default (Settings.read src "mem0_port") _ _)
      as [port |] eqn:Hport; [| discriminate Hload].
    destruct (Settings.with_default (Settings.read src "cors_origins") _ _)
      as [origins |] eqn:Horigins; [| discriminate Hload].
    destruct (Settings.with_default (Settings.read src "debug") _ _)
      as [dbg |] eqn:Hdebug; [| discriminate Hload].
    inversion Hload; subst s; clear Hload. simpl.
    repeat split; intro Hunset; rewrite Hunset in *; try reflexivity.
    + apply (with_default_absent Hport).
    + apply (with_default_absent Horigins).
    + apply (with_default_absent Hdebug).
  - intros (Hextra & Hport & Horigins & Hdebug).
    unfold Settings.load. rewrite Hextra.
    destruct (Settings.read src "openai_api_key") as [key |].
    + destruct (@with_default_accepts _ _ (Settings.env_int C) 8002%Z Hport)
        as [port Hp].
      destruct (@with_default_accepts _ _ (Settings.env_str_list C) ["*"]
                                      Horigins) as [origins Ho].
      destruct (@with_default_accepts _ _ (Settings.env_bool C) false Hdebug)
        as [dbg Hd].
      rewrite Hp, Ho, Hd.
      split; [intros [e He]; discriminate He | intro Hno; discriminate Hno].
    + split; [reflexivity | intros _; eexists; reflexivity].
Qed.

(** C9, a failure with the key present: the key is set, the port is the text
    [abc], and the loader fails. *)
Lemma settings_fail_with_key_set :
  Settings.read example_bad_port "openai_api_key" = Some "sk-test"
  /\ Settings.load Settings.plain_coercions example_bad_port
     = Raises (Settings.ValidationError "Input should be a valid value").
Proof. split; reflexivity. Qed.

(** ** The theorems at concrete inputs *)

(** X21 at a mapping and an object with the same text and score. *)
Lemma mapping_and_object_witness :
  format_result pydantic_strict
                (PyDict [("memory", PyStr "likes tea");
                         ("score", PyFloat float_1_0)])
  = format_result pydantic_strict
                  (PyObj "Hit" [("score", PyFloat float_1_0);
                                ("memory", PyStr "likes tea")]).
Proof.
  destruct (mapping_and_object_normalize_alike
              pydantic_strict_laws
              [("memory", PyStr "likes tea"); ("score", PyFloat float_1_0)]
              [("score", PyFloat float_1_0); ("memory", PyStr "likes tea")]
              "Hit" "likes tea") as [Halike _].
  apply Halike.
  - intros key default [Hk | [Hk | [Hk | []]]]; subst key; reflexivity.
  - reflexivity.
Defined.

(** C2 at a content of 10001 characters. *)
Lemma add_accepts_overlong_witness :
  let content := string_of 10001%N "a" in
  let body := PyDict [("content", PyStr content); ("user_id", PyStr "u1")] in
  let added :=
    POST_memory_add pydantic_strict [] (Some example_memory) body [] in
  (10000 < Z.of_nat (String.length content))%Z
  /\ snd added = [CallAdd content "u1" []]
  /\ status_code (fst added) <> 422%Z
  /\ Schemas.MemoryCreate.validate pydantic_strict body
     = Raises (body_error "content").
Proof.
  cbv zeta.
  assert (Hlong : (10000 < Z.of_nat (String.length (string_of 10001%N "a")))%Z)
    by (apply Z.ltb_lt; vm_compute; reflexivity).
  pose proof (@add_accepts_any_length
                pydantic_strict pydantic_strict_laws [] example_memory []
                (string_of 10001%N "a") "u1" "tea") as H.
  cbv zeta in H.
  destruct H as (_ & Hcall & Hcode & _ & _ & Hschema & _).
  - apply Z.leb_le. vm_compute. reflexivity.
  - apply Z.leb_le. vm_compute. reflexivity.
  - apply Z.leb_le. vm_compute. reflexivity.
  - split; [exact Hlong |].
    split; [exact Hcall |].
    split; [exact Hcode | exact (Hschema Hlong)].
Defined.

(** C4 at a batch of three whose second item fails. *)
Lemma batch_add_witness :
  let outcomes :=
    add_outcomes example_memory (BatchMemoryInput.memories example_batch) []
  in
  S (List.length (successes outcomes))
  = List.length (BatchMemoryInput.memories example_batch)
  /\ failures 0 outcomes = [error_entry 1 (Exception "RuntimeError" "boom")].
Proof.
  cbv zeta.
  pose proof (batch_add_attempts_every_item example_memory example_batch [])
    as H.
  cbv zeta in H. destruct H as (_ & _ & _ & _ & _ & Hone).
  apply (Hone [Returns (PyStr "id-0")] (Exception "RuntimeError" "boom")
              [Returns (PyStr "id-2")]).
  - reflexivity.
  - repeat constructor. eexists. reflexivity.
  - repeat constructor. eexists. reflexivity.
Defined.

(** C6 at the example library, whose [delete] never raises. *)
Lemma delete_user_memories_witness :
  delete_user_memories (Some example_memory) "u1" []
  = (Returns (deleted_response 2),
     [CallGetAll "u1" None; CallDelete (PyStr "m1"); CallDelete (PyStr "m2")]).
Proof.
  pose proof (delete_user_memories_fetches_then_deletes example_memory "u1" [])
    as H.
  cbv zeta in H. destruct H as (_ & _ & _ & Hall).
  apply (Hall (PyDict [("results",
                        PyList [PyDict [("id", PyStr "m1")];
                                PyDict [("memory", PyStr "no id")];
                                PyDict [("id", PyStr "m2")]])])
              [PyDict [("id", PyStr "m1")];
               PyDict [("memory", PyStr "no id")];
               PyDict [("id", PyStr "m2")]]).
  - reflexivity.
  - reflexivity.
  - intros h id. exists PyNone. reflexivity.
Defined.

(** C7 at an environment whose DEBUG is not "true". *)
Lemma global_handler_witness :
  global_exception_handler [("DEBUG", "false")]
                           (Exception "KeyError" "secret")
  = global_exception_handler [("DEBUG", "false")]
                             (Exception "ValueError" "other").
Proof.
  destruct (global_handler_hides_detail [("DEBUG", "false")]
                                        (Exception "KeyError" "secret"))
    as (_ & _ & _ & Hoff).
  destruct Hoff as [_ Hsame].
  - intro Hon. vm_compute in Hon. discriminate Hon.
  - apply Hsame.
Defined.

(** X22 at a search with limit 5 on the example library. *)
Lemma search_count_witness :
  exists response,
    fst (search_memory pydantic_strict (Some example_memory)
                       (SearchInput.mk "tea" "u1" 5) [])
    = Returns response
    /\ SearchResponse.count response
       = List.length (SearchResponse.results response)
    /\ (Z.of_nat (SearchResponse.count response) <= 5)%Z.
Proof.
  eexists. split; [reflexivity |].
  pose proof (@search_count_is_number_of_entries
                pydantic_strict example_memory
                (SearchInput.mk "tea" "u1" 5) [] _ _ eq_refl) as H.
  cbv zeta in H.
  destruct H as (_ & Hcount & _ & raw & Hraw & _ & Hle).
  split; [exact Hcount |].
  apply Hle. inversion Hraw; subst raw. vm_compute. discriminate.
Defined.

(** C9 at an environment that sets the key and a numeric port. *)
Lemma settings_witness :
  well_typed Settings.plain_coercions example_sources
  /\ ((exists e,
          Settings.load Settings.plain_coercions example_sources = Raises e)
      <-> Settings.read example_sources "openai_api_key" = None).
Proof.
  assert (Hwell : well_typed Settings.plain_coercions example_sources).
  { unfold well_typed. split; [reflexivity |].
    split; [| split]; intros v Hv; vm_compute in Hv;
      try discriminate Hv; inversion Hv; subst v; vm_compute;
      intro Hnone; discriminate Hnone. }
  split; [exact Hwell |].
  pose proof (settings_defaults_and_required_key
                Settings.plain_coercions example_sources) as H.
  cbv zeta in H. destruct H as (_ & _ & Hiff).
  exact (Hiff Hwell).
Defined.

(** C10 at the example library, with and without the record that has no
    id. *)
Lemma entries_without_id_witness :
  delete_user_memories (Some example_memory) "u1" []
  = delete_user_memories (Some example_memory_without) "u1" [].
Proof.
  refine (proj1 (@entries_without_id_are_skipped
                   example_memory example_memory_without "u1" []
                   (PyDict [("results",
                             PyList [PyDict [("id", PyStr "m1")];
                                     PyDict [("memory", PyStr "no id")];
                                     PyDict [("id", PyStr "m2")]])])
                   (PyDict [("results",
                             PyList [PyDict [("id", PyStr "m1")];
                                     PyDict [("id", PyStr "m2")]])])
                   [PyDict [("id", PyStr "m1")]]
                   (PyDict [("memory", PyStr "no id")])
                   [PyDict [("id", PyStr "m2")]]
                   _ eq_refl eq_refl eq_refl eq_refl _)).
  - apply mapping_without_id. reflexivity.
  - intros [| c0 h] c Hne; [contradiction Hne; reflexivity | reflexivity].
Defined.

(** ** CORS origins *)

Lemma split_not_empty :
  forall (sep : ascii) (s : string), split sep s <> [].
Proof.
  intros sep s. destruct s as [| c rest]; simpl.
  - discriminate.
  - destruct (Ascii.eqb c sep); [discriminate |].
    destruct (split sep rest); discriminate.
Qed.

Lemma join_cons :
  forall (sep : ascii) (part : string) (parts : list string),
    parts <> [] ->
    join sep (part :: parts) = (part ++ String sep (join sep parts))%string.
Proof.
  intros sep part [| p ps] Hne; [contradiction Hne; reflexivity | reflexivity].
Qed.

Lemma join_split :
  forall (sep : ascii) (s : string), join sep (split sep s) = s.
Proof.
  intros sep. induction s as [| c rest IH].
  - reflexivity.
  - simpl split. destruct (Ascii.eqb c sep) eqn:Hc.
    + apply Ascii.eqb_eq in Hc. subst c.
      rewrite join_cons by apply split_not_empty. rewrite IH. reflexivity.
    + destruct (split sep rest) as [| part parts] eqn:Hsplit.
      * exfalso. exact (split_not_empty sep rest Hsplit).
      * destruct parts as [| p ps].
        -- simpl in *. rewrite IH. reflexivity.
        -- rewrite <- IH. rewrite !(@join_cons sep _ (p :: ps)) by discriminate.
           reflexivity.
Qed.

Lemma split_pieces :
  forall (sep : ascii) (s : string),
    Forall (fun part => has_char sep part = false) (split sep s)
    /\ List.length (split sep s) = S (count_char sep s).
Proof.
  intros sep. induction s as [| c rest [IHparts IHlen]].
  - split; [repeat constructor | reflexivity].
  - simpl. destruct (Ascii.eqb c sep) eqn:Hc.
    + split; [constructor; [reflexivity | exact IHparts] |].
      simpl. rewrite IHlen. reflexivity.
    + destruct (split sep rest) as [| part parts].
      * discriminate IHlen.
      * inversion IHparts as [| ? ? Hpart Hparts]; subst.
        split; [| exact IHlen].
        constructor; [simpl; rewrite Hc, Hpart; reflexivity | exact Hparts].
Qed.

(** X1: the list of CORS origins is the text of CORS_ORIGINS (or [*] when it
    is unset) cut at its commas: it is never empty, it has one origin more
    than the text has commas, no origin contains a comma, and joining the
    origins with commas gives the text back (nothing is trimmed or
    dropped). *)
Theorem cors_origins_cut_at_commas :
  forall environ : Environ,
    let text := getenv_or environ "CORS_ORIGINS" "*" in
    join ","%char (cors_origins environ) = text
    /\ cors_origins environ <> []
    /\ List.length (cors_origins environ) = S (count_char ","%char text)
    /\ Forall (fun origin => has_char ","%char origin = false)
              (cors_origins environ)
    /\ (getenv environ "CORS_ORIGINS" = None -> cors_origins environ = ["*"]).
Proof.
  intros environ text. unfold cors_origins. fold text.
  destruct (split_pieces ","%char text) as [Hparts Hlen].
  repeat split; try assumption.
  - apply join_split.
  - apply split_not_empty.
  - intro Hunset. subst text. unfold getenv_or. rewrite Hunset. reflexivity.
Qed.

(** ** Start-up and shutdown *)




(** X4: when the imports, the client and [Memory.from_config] succeed,
    start-up sets the instance to the one built from the configured URL and
    collection; the vector-store API key is passed to the client only when
    QDRANT_API_KEY is set and not empty; the health check then reports
    "healthy", and shutdown unsets the instance again. *)
Theorem startup_builds_configured_instance :
  forall (deps : Lifecycle.Dependencies) (environ : Environ) (inst : Memory),
    Lifecycle.import_modules deps = None ->
    Lifecycle.connect deps (Lifecycle.qdrant_client environ) = None ->
    Lifecycle.from_config deps (Lifecycle.config environ) = Returns inst ->
    let cfg := Lifecycle.config environ in
    Lifecycle.startup deps environ = (Returns tt, Some inst)
    /\ Lifecycle.url (Lifecycle.client cfg)
       = getenv_or environ "QDRANT_URL" "http://localhost:6333"
    /\ Lifecycle.collection_name cfg
       = getenv_or environ "MEM0_COLLECTION" "user_memories"
    /\ (Lifecycle.api_key (Lifecycle.client cfg) = None
        <-> (getenv environ "QDRANT_API_KEY" = None
             \/ getenv environ "QDRANT_API_KEY" = Some EmptyString))
    /\ (forall key,
           getenv environ "QDRANT_API_KEY" = Some key ->
           key <> EmptyString ->
           Lifecycle.api_key (Lifecycle.client cfg) = Some key)
    /\ (forall history,
           at_path ["status"]
                   (content (fst (GET_health
                                    environ
                                    (snd (Lifecycle.startup deps environ))
                                    history)))
           = PyStr "healthy")
    /\ Lifecycle.close_memory (snd (Lifecycle.startup deps environ)) = None.
Proof.
  intros deps environ inst Himport Hconnect Hbuild cfg.
  assert (Hstart : Lifecycle.startup deps environ = (Returns tt, Some inst)).
  { unfold Lifecycle.startup, Lifecycle.initialize_memory, Lifecycle.build.
    rewrite Himport, Hconnect, Hbuild. reflexivity. }
  rewrite Hstart. subst cfg.
  unfold Lifecycle.config, Lifecycle.qdrant_client, QDRANT_API_KEY,
    getenv_or. simpl.
  split; [reflexivity |]. split; [reflexivity |]. split; [reflexivity |].
  destruct (getenv environ "QDRANT_API_KEY") as [key |] eqn:Hkey.
  - destruct (String.eqb key EmptyString) eqn:Hempty.
    + apply String.eqb_eq in Hempty. subst key.
      split; [split; [intros _; right; reflexivity | reflexivity] |].
      split; [| split; reflexivity].
      intros key Hk Hne. inversion Hk; subst. contradiction Hne. reflexivity.
    + split; [split; [intro H; discriminate H |] |].
      * intros [H | H]; [discriminate H |].
        inversion H; subst key. discriminate Hempty.
      * split; [| split; reflexivity].
        intros key' Hk _. inversion Hk; subst. reflexivity.
  - simpl. split; [split; [intros _; left; reflexivity | reflexivity] |].
    split; [| split; reflexivity].
    intros key Hk. discriminate Hk.
Qed.

(** ** What the handlers let out *)

Lemma try_except_handled :
  forall {A : Type} (body : Handler A) (what : string) (history : list Call),
    handled (fst (try_except body (internal_error what) history)).
Proof.
  intros A body what history. unfold try_except, internal_error, raise.
  destruct (body history) as [[a | e] history']; simpl; auto.
Qed.

Lemma handled_is_answered :
  forall {A : Type} (environ : Environ) (to_json : A -> PyVal)
         (handler : Handler A) (history : list Call),
    handled (fst (handler history)) ->
    answered (fst (serve environ to_json handler history)).
Proof.
  intros A environ to_json handler history. unfold serve, answered.
  destruct (handler history) as [[a | e] history']; simpl.
  - intros _. destruct (jsonable (to_json a)); simpl; auto.
  - destruct e as [cls msg | sc detail | field]; simpl;
      [contradiction | intros [H | H]; auto | contradiction].
Qed.

(** X5: a memory handler (add, search, list, delete-one, delete-all,
    batch-add) wraps every exception the library raises (an instance of
    [Exception]): its outcome is its model or an [HTTPException] with status
    500 or 503, never the library's exception itself; so each of these
    operations is answered with status 200, 500 or 503. *)
Theorem handlers_wrap_library_exceptions :
  forall (P : Pydantic) (environ : Environ)
         (memory_instance : option Memory)
         (history : list Call) (memory : MemoryInput.t)
         (search : SearchInput.t) (batch : BatchMemoryInput.t)
         (user_id memory_id : string) (limit : Z),
    (handled (fst (add_memory memory_instance memory history))
     /\ handled (fst (search_memory P memory_instance search history))
     /\ handled (fst (get_memories P memory_instance user_id limit history))
     /\ handled (fst (delete_memory memory_instance memory_id history))
     /\ handled (fst (delete_user_memories memory_instance user_id history))
     /\ handled (fst (add_memories_batch memory_instance batch history)))
    /\ (answered (fst (serve environ SuccessResponse_json
                             (add_memory memory_instance memory) history))
        /\ answered (fst (serve environ SearchResponse_json
                                (search_memory P memory_instance search)
                                history))
        /\ answered (fst (GET_memory P environ memory_instance user_id
                                     (Some limit) history))
        /\ answered (fst (DELETE_memory environ memory_instance memory_id
                                        history))
        /\ answered (fst (DELETE_memory_user environ memory_instance user_id
                                             history))
        /\ answered (fst (serve environ SuccessResponse_json
                                (add_memories_batch memory_instance batch)
                                history))).
Proof.
  intros P environ memory_instance history memory search batch user_id
         memory_id limit.
  assert (Hall :
            handled (fst (add_memory memory_instance memory history))
            /\ handled (fst (search_memory P memory_instance search history))
            /\ handled (fst (get_memories P memory_instance user_id limit
                                          history))
            /\ handled (fst (delete_memory memory_instance memory_id history))
            /\ handled (fst (delete_user_memories memory_instance user_id
                                                  history))
            /\ handled (fst (add_memories_batch memory_instance batch
                                                history))).
  { destruct memory_instance as [inst |].
    - repeat split; try apply try_except_handled.
      unfold add_memories_batch, bind. rewrite batch_each_outcomes.
      exact I.
    - repeat split; simpl; right; reflexivity. }
  split; [exact Hall |].
  destruct Hall as (Ha & Hs & Hg & Hd & Hu & Hb).
  unfold GET_memory, DELETE_memory, DELETE_memory_user.
  repeat split; apply handled_is_answered; assumption.
Qed.

(** X6: when the library call of add, search, list, delete-one or the fetch
    of delete-all raises, the client gets status 500 and a detail made of
    the operation's prefix and the exception's message, whatever the
    environment (the DEBUG flag included) says; the call is in the
    history. *)
Theorem library_errors_reach_the_client :
  forall (P : Pydantic) (environ : Environ) (inst : Memory)
         (history : list Call) (e : PyExc),
    (forall memory,
        inst history (add_call memory) = Raises e ->
        serve environ SuccessResponse_json (add_memory (Some inst) memory)
              history
        = (failed_response "Failed to add memory: " e,
           history ++ [add_call memory]))
    /\ (forall search,
           let call := CallSearch (SearchInput.query search)
                                  (SearchInput.user_id search)
                                  (SearchInput.limit search) in
           inst history call = Raises e ->
           serve environ SearchResponse_json
                 (search_memory P (Some inst) search) history
           = (failed_response "Failed to search memory: " e,
              history ++ [call]))
    /\ (forall user_id limit,
           inst history (CallGetAll user_id (Some limit)) = Raises e ->
           GET_memory P environ (Some inst) user_id (Some limit) history
           = (failed_response "Failed to get memories: " e,
              history ++ [CallGetAll user_id (Some limit)]))
    /\ (forall memory_id,
           inst history (CallDelete (PyStr memory_id)) = Raises e ->
           DELETE_memory environ (Some inst) memory_id history
           = (failed_response "Failed to delete memory: " e,
              history ++ [CallDelete (PyStr memory_id)]))
    /\ (forall user_id,
           inst history (CallGetAll user_id None) = Raises e ->
           DELETE_memory_user environ (Some inst) user_id history
           = (failed_response "Failed to delete memories: " e,
              history ++ [CallGetAll user_id None])).
Proof.
  intros P environ inst history e.
  split; [| split; [| split; [| split]]].
  - intros memory Hraise.
    unfold serve, add_memory, try_except, bind, invoke.
    fold (add_call memory). rewrite Hraise. reflexivity.
  - intros search call Hraise. unfold serve.
    rewrite search_memory_run. fold call. rewrite Hraise. reflexivity.
  - intros user_id limit Hraise.
    unfold GET_memory, serve, get_memories, try_except, bind, invoke.
    rewrite Hraise. reflexivity.
  - intros memory_id Hraise.
    unfold DELETE_memory, serve, delete_memory, try_except, bind, invoke.
    rewrite Hraise. reflexivity.
  - intros user_id Hraise. unfold DELETE_memory_user, serve.
    rewrite delete_user_memories_run. rewrite Hraise. reflexivity.
Qed.

(** ** Listing memories *)

(** X7: list-memories accepts both shapes of [get_all]'s result: a plain
    list, and a mapping whose [results] entry is the list.  In both cases it
    calls [get_all] once with the user and the limit, and answers success
    with the records and a count equal to the length of that list. *)
Theorem get_memories_reads_both_shapes :
  forall (P : Pydantic) (inst : Memory) (user_id : string) (limit : Z)
         (history : list Call) (raw : PyVal) (records : list PyVal)
         (memories : list dict),
    inst history (CallGetAll user_id (Some limit)) = Returns raw ->
    (raw = PyList records
     \/ exists d, raw = PyDict d
                  /\ Py.contains d "results" = true
                  /\ Py.get d "results" PyNone = PyList records) ->
    as_dict_list P (PyList records) = Some memories ->
    get_memories P (Some inst) user_id limit history
    = (Returns (MemoryListResponse.mk true memories (List.length records)),
       history ++ [CallGetAll user_id (Some limit)]).
Proof.
  intros P inst user_id limit history raw records memories Hraw Hshape Hfit.
  assert (Hmems : memories_of raw = PyList records).
  { destruct Hshape as [Hlist | (d & Hd & Hhas & Hget)]; subst raw; simpl.
    - reflexivity.
    - rewrite Hhas. exact Hget. }
  unfold get_memories, try_except, bind, invoke, lift.
  rewrite Hraw, Hmems. simpl. unfold MemoryListResponse.new.
  rewrite Hfit. reflexivity.
Qed.

(** X8: any other result of [get_all] (neither a list nor a mapping with a
    [results] entry: [None], a string, a mapping without that key) is read
    as no memories: list-memories answers success with an empty list and
    count 0; and a [results] entry that has no length makes it answer 500
    with the type error's message. *)
Theorem get_memories_other_shapes :
  forall (P : Pydantic) (inst : Memory) (user_id : string) (limit : Z)
         (history : list Call) (raw : PyVal),
    inst history (CallGetAll user_id (Some limit)) = Returns raw ->
    let call := CallGetAll user_id (Some limit) in
    ((forall records, raw <> PyList records) ->
     (forall d, raw = PyDict d -> Py.contains d "results" = false) ->
     as_dict_list P (PyList []) = Some [] ->
     get_memories P (Some inst) user_id limit history
     = (Returns (MemoryListResponse.mk true [] 0), history ++ [call]))
    /\ (forall d e,
           raw = PyDict d ->
           Py.contains d "results" = true ->
           PyOps.len (Py.get d "results" PyNone) = Raises e ->
           get_memories P (Some inst) user_id limit history
           = (Raises (HTTPException
                        500 ("Failed to get memories: " ++ str_exc e)),
              history ++ [call])).
Proof.
  intros P inst user_id limit history raw Hraw call. split.
  - intros Hnolist Hnokey Hfit.
    assert (Hmems : memories_of raw = PyList []).
    { destruct raw as [| b | n | x | s | items | d | cls attrs];
        try reflexivity.
      - exfalso. exact (Hnolist items eq_refl).
      - simpl. rewrite (Hnokey d eq_refl). reflexivity. }
    unfold get_memories, try_except, bind, invoke, lift.
    rewrite Hraw, Hmems. simpl. unfold MemoryListResponse.new.
    rewrite Hfit. reflexivity.
  - intros d e Hd Hhas Hlen. subst raw.
    unfold get_memories, try_except, bind, invoke, lift.
    rewrite Hraw. simpl memories_of. rewrite Hhas, Hlen. reflexivity.
Qed.

(** ** Delete all: a delete that raises *)

Lemma delete_each_stops :
  forall (inst : Memory) (items : list PyVal) (before : list PyVal)
         (id : PyVal) (after : list PyVal) (n : nat) (history : list Call)
         (e : PyExc),
    ids_of items = before ++ id :: after ->
    (forall k,
        (k < List.length before)%nat ->
        exists v,
          inst (history ++ map CallDelete (firstn k before))
               (CallDelete (nth k before PyNone))
          = Returns v) ->
    inst (history ++ map CallDelete before) (CallDelete id) = Raises e ->
    delete_each inst items n history
    = (Raises e, history ++ map CallDelete (before ++ [id])).
Proof.
  induction items as [| mem rest IH];
    intros before id after n history e Hids Hbefore Hraise.
  - destruct before; discriminate Hids.
  - rewrite delete_each_cons. unfold ids_of in Hids. simpl in Hids.
    destruct (Py.truthy (mem_id_of mem)) eqn:Hid.
    + destruct before as [| b before'].
      * simpl in *. inversion Hids; subst. rewrite app_nil_r in Hraise.
        rewrite Hraise. reflexivity.
      * simpl in Hids. inversion Hids as [[Hb Hrest]]. subst b.
        destruct (Hbefore 0%nat) as [v Hv]; [simpl; lia |].
        simpl in Hv. rewrite app_nil_r in Hv. rewrite Hv.
        rewrite (IH before' id after (n + 1)%nat
                    (history ++ [CallDelete (mem_id_of mem)]) e Hrest).
        -- simpl. rewrite <- app_assoc. reflexivity.
        -- intros k Hk. destruct (Hbefore (S k)) as [w Hw]; [simpl; lia |].
           exists w. simpl in Hw. rewrite <- app_assoc. exact Hw.
        -- rewrite <- app_assoc. exact Hraise.
    + apply (IH before id after n history e Hids Hbefore Hraise).
Qed.

(** X9: delete-all-for-user stops at the first [delete] that raises: the
    ids before it have been deleted, the ids after it are not attempted,
    and the client gets 500 with the exception's message and no count of
    what was deleted. *)
Theorem failed_delete_stops_the_loop :
  forall (environ : Environ) (inst : Memory) (user_id : string)
         (history : list Call) (raw : PyVal) (items before : list PyVal)
         (id : PyVal) (after : list PyVal) (e : PyExc),
    let fetched := history ++ [CallGetAll user_id None] in
    inst history (CallGetAll user_id None) = Returns raw ->
    memories_of raw = PyList items ->
    ids_of items = before ++ id :: after ->
    (forall k,
        (k < List.length before)%nat ->
        exists v,
          inst (fetched ++ map CallDelete (firstn k before))
               (CallDelete (nth k before PyNone))
          = Returns v) ->
    inst (fetched ++ map CallDelete before) (CallDelete id) = Raises e ->
    DELETE_memory_user environ (Some inst) user_id history
    = (failed_response "Failed to delete memories: " e,
       fetched ++ map CallDelete (before ++ [id])).
Proof.
  intros environ inst user_id history raw items before id after e fetched
         Hraw Hmems Hids Hbefore Hraise.
  unfold DELETE_memory_user, serve.
  rewrite delete_user_memories_run. rewrite Hraw, Hmems, iter_of_list.
  fold fetched.
  rewrite (delete_each_stops inst items before id after 0 fetched
                             Hids Hbefore Hraise).
  reflexivity.
Qed.

(** ** Search: other shapes, and entries that do not fit *)

Lemma format_result_of_str :
  forall (P : Pydantic) (text : string),
    PydanticLaws P ->
    format_result P (PyStr text) = Returns (text_item text).
Proof.
  intros P text [Hstr _ Hfloat _ Hdict].
  unfold format_result, result_fields, SearchResult.new. simpl.
  rewrite Hstr, Hfloat, Hdict. reflexivity.
Qed.

Lemma each_of_keys :
  forall (P : Pydantic) (entries : dict),
    PydanticLaws P ->
    each (format_result P) (map (fun kv => PyStr (fst kv)) entries)
    = Returns (map (fun kv => text_item (fst kv)) entries).
Proof.
  intros P entries HP. induction entries as [| [k v] rest IH]; simpl.
  - reflexivity.
  - rewrite (format_result_of_str k HP). simpl. rewrite IH. reflexivity.
Qed.

Lemma each_stops :
  forall {A B : Type} (f : A -> Outcome B) (before : list A) (bad : A)
         (after : list A) (ok : list B) (e : PyExc),
    each f before = Returns ok ->
    f bad = Raises e ->
    each f (before ++ bad :: after) = Raises e.
Proof.
  intros A B f. induction before as [| x rest IH];
    intros bad after ok e Hbefore Hbad; simpl in *.
  - rewrite Hbad. reflexivity.
  - destruct (f x) as [y | e0]; simpl in *; [| discriminate Hbefore].
    destruct (each f rest) as [ys | e0] eqn:Hrest; simpl in *;
      [| discriminate Hbefore].
    rewrite (IH bad after ys e eq_refl Hbad). reflexivity.
Qed.

(** X10: what search makes of a result that is not a list.  A non-empty
    mapping (the shape newer versions of the library return) is iterated by
    its keys: the answer is success with one item per key, the key as the
    memory text with score 1.0 and empty metadata, and the mapping's values
    are not looked at.  A falsy result ([None], an empty list) is success
    with no results.  A truthy result without a length is a 500. *)
Theorem search_results_of_other_shapes :
  forall (P : Pydantic),
    PydanticLaws P ->
    forall (inst : Memory) (search : SearchInput.t) (history : list Call)
           (raw : PyVal),
      let call := CallSearch (SearchInput.query search)
                             (SearchInput.user_id search)
                             (SearchInput.limit search) in
      inst history call = Returns raw ->
      (forall entries,
          raw = PyDict entries -> entries <> [] ->
          search_memory P (Some inst) search history
          = (Returns (SearchResponse.mk
                        true
                        (map (fun kv => text_item (fst kv)) entries)
                        (List.length entries)),
             history ++ [call]))
      /\ (Py.truthy raw = false ->
          search_memory P (Some inst) search history
          = (Returns (SearchResponse.mk true [] 0), history ++ [call]))
      /\ (forall e,
             Py.truthy raw = true -> PyOps.len raw = Raises e ->
             search_memory P (Some inst) search history
             = (Raises (HTTPException
                          500 ("Failed to search memory: " ++ str_exc e)),
                history ++ [call])).
Proof.
  intros P HP inst search history raw call Hraw.
  rewrite search_memory_run. fold call. rewrite Hraw.
  split; [| split].
  - intros entries Hshape Hne. subst raw.
    destruct entries as [| entry rest]; [contradiction Hne; reflexivity |].
    change (Py.truthy (PyDict (entry :: rest))) with true. cbv iota.
    change (PyOps.len (PyDict (entry :: rest)))
      with (Returns (A := nat) (List.length (entry :: rest))).
    change (PyOps.iter (PyDict (entry :: rest)))
      with (Returns (map (fun kv => PyStr (fst kv)) (entry :: rest))).
    unfold and_then at 1. rewrite (each_of_keys (entry :: rest) HP).
    rewrite length_map. reflexivity.
  - intro Hfalsy. rewrite Hfalsy. reflexivity.
  - intros e Htruthy Hlen. rewrite Htruthy, Hlen. reflexivity.
Qed.

(** X11: search is all or nothing: when one entry of the returned list does
    not fit the item's field types, the client gets a 500 with that
    validation error's message and none of the entries, the ones that fit
    included. *)
Theorem search_fails_on_one_unfit_entry :
  forall (P : Pydantic) (inst : Memory) (search : SearchInput.t)
         (history : list Call) (before : list PyVal) (bad : PyVal)
         (after : list PyVal) (ok : list SearchResult.t) (e : PyExc),
    let call := CallSearch (SearchInput.query search)
                           (SearchInput.user_id search)
                           (SearchInput.limit search) in
    inst history call = Returns (PyList (before ++ bad :: after)) ->
    each (format_result P) before = Returns ok ->
    format_result P bad = Raises e ->
    search_memory P (Some inst) search history
    = (Raises (HTTPException
                 500 ("Failed to search memory: " ++ str_exc e)),
       history ++ [call]).
Proof.
  intros P inst search history before bad after ok e call Hraw Hok Hbad.
  rewrite search_memory_run. fold call. rewrite Hraw.
  assert (Htruthy : Py.truthy (PyList (before ++ bad :: after)) = true)
    by (destruct before; reflexivity).
  rewrite Htruthy. simpl PyOps.len. cbv iota. simpl PyOps.iter.
  unfold and_then at 1.
  rewrite (each_stops (format_result P) before bad after Hok Hbad).
  reflexivity.
Qed.

(** ** Batch add: the status *)





(** ** Request bodies the models refuse *)

Lemma required_str_missing :
  forall (P : Pydantic) (b : dict) (name : string) (lo : Z) (hi : option Z),
    Py.contains b name = false ->
    required_str P b name lo hi = Raises (body_error name).
Proof.
  intros P b name lo hi Hmissing. unfold required_str. rewrite Hmissing.
  reflexivity.
Qed.

Lemma required_str_empty :
  forall (P : Pydantic) (b : dict) (name : string) (hi : option Z),
    PydanticLaws P ->
    Py.get b name PyNone = PyStr EmptyString ->
    required_str P b name 1 hi = Raises (body_error name).
Proof.
  intros P b name hi HP Hempty. unfold required_str.
  destruct (Py.contains b name); [| reflexivity].
  rewrite Hempty, (as_str_str HP). reflexivity.
Qed.

Lemma required_str_cases :
  forall (P : Pydantic) (b : dict) (name : string) (lo : Z) (hi : option Z),
    (exists s, required_str P b name lo hi = Returns s)
    \/ required_str P b name lo hi = Raises (body_error name).
Proof.
  intros P b name lo hi. unfold required_str.
  destruct (Py.contains b name); [| right; reflexivity].
  destruct (as_str P (Py.get b name PyNone)) as [s |]; [| right; reflexivity].
  destruct ((lo <=? Z.of_nat (String.length s))%Z
            && match hi with
               | Some h => (Z.of_nat (String.length s) <=? h)%Z
               | None => true
               end);
    [left; exists s; reflexivity | right; reflexivity].
Qed.

(** A body that does not fit is answered 422 and nothing is called. *)
Lemma refused_body_is_422 :
  forall {A B : Type} (environ : Environ) (to_json : B -> PyVal)
         (validated : Outcome A) (handler : A -> Handler B)
         (history : list Call) (field : string),
    validated = Raises (body_error field) ->
    serve environ to_json (m <- lift validated ;; handler m) history
    = (unprocessable field, history).
Proof.
  intros A B environ to_json validated handler history field Hrefused.
  unfold serve, bind, lift. rewrite Hrefused. reflexivity.
Qed.

(** X13: an add request whose body is not an object, or lacks [content] or
    [user_id], or has one of them empty, is answered 422 and the library is
    not called; this holds whether the adapter is set or not (validation
    comes before the 503 of an unset adapter). *)
Theorem add_refuses_missing_or_empty_fields :
  forall (P : Pydantic),
    PydanticLaws P ->
    forall (environ : Environ) (memory_instance : option Memory)
           (history : list Call) (body : PyVal),
      (forall b,
          body = PyDict b ->
          Py.contains b "content" = false
          \/ Py.get b "content" PyNone = PyStr EmptyString
          \/ Py.contains b "user_id" = false
          \/ Py.get b "user_id" PyNone = PyStr EmptyString) ->
      status_code (fst (POST_memory_add P environ memory_instance body
                                        history))
      = 422%Z
      /\ snd (POST_memory_add P environ memory_instance body history)
         = history.
Proof.
  intros P HP environ memory_instance history body Hbad.
  assert (Hrefused : exists field,
             MemoryInput.validate P body = Raises (body_error field)).
  { destruct body as [| x | n | x | s | items | b | cls attrs];
      try (exists "body"; reflexivity).
    unfold MemoryInput.validate.
    destruct (required_str_cases P b "content" 1 None) as [[c Hc] | Hc];
      [| exists "content"; rewrite Hc; reflexivity].
    destruct (required_str_cases P b "user_id" 1 None) as [[u Hu] | Hu];
      [| exists "user_id"; rewrite Hc, Hu; reflexivity].
    exfalso.
    destruct (Hbad b eq_refl) as [H | [H | [H | H]]].
    - rewrite (@required_str_missing P b "content" 1%Z None H) in Hc.
      discriminate Hc.
    - rewrite (@required_str_empty P b "content" None HP H) in Hc.
      discriminate Hc.
    - rewrite (@required_str_missing P b "user_id" 1%Z None H) in Hu.
      discriminate Hu.
    - rewrite (@required_str_empty P b "user_id" None HP H) in Hu.
      discriminate Hu. }
  destruct Hrefused as [field Hfield].
  unfold POST_memory_add.
  rewrite (@refused_body_is_422 _ _ environ SuccessResponse_json _
                                (add_memory memory_instance) history field
                                Hfield).
  split; reflexivity.
Qed.

(** X14: the limit of a search request.  Without a [limit] the library is
    searched with limit 5; a [limit] from 1 to 100 is passed on as it is;
    a [limit] below 1 or above 100 is answered 422 and the library is not
    called. *)
Theorem search_limit_is_validated :
  forall (P : Pydantic),
    PydanticLaws P ->
    forall (environ : Environ) (inst : Memory) (history : list Call)
           (query user_id : string) (n : Z),
      (1 <= Z.of_nat (String.length query))%Z ->
      (1 <= Z.of_nat (String.length user_id))%Z ->
      let plain := PyDict [("query", PyStr query);
                           ("user_id", PyStr user_id)] in
      let limited := PyDict [("query", PyStr query);
                             ("user_id", PyStr user_id);
                             ("limit", PyInt n)] in
      snd (POST_memory_search P environ (Some inst) plain history)
      = history ++ [CallSearch query user_id 5]
      /\ ((1 <= n <= 100)%Z ->
          snd (POST_memory_search P environ (Some inst) limited history)
          = history ++ [CallSearch query user_id n])
      /\ ((n < 1 \/ 100 < n)%Z ->
          POST_memory_search P environ (Some inst) limited history
          = (unprocessable "limit", history)).
Proof.
  intros P HP environ inst history query user_id n Hquery Huser
         plain limited.
  assert (Hcalled : forall search,
             snd (serve environ SearchResponse_json
                        (search_memory P (Some inst) search) history)
             = history ++ [CallSearch (SearchInput.query search)
                                      (SearchInput.user_id search)
                                      (SearchInput.limit search)]).
  { intro search. unfold serve. rewrite search_memory_run.
    destruct (inst history _) as [raw | e]; [| reflexivity].
    destruct (if Py.truthy raw then PyOps.len raw else Returns 0%nat);
      [| reflexivity].
    destruct (if Py.truthy raw
              then and_then (PyOps.iter raw) (each (format_result P))
              else Returns []); reflexivity. }
  assert (Hq : forall b,
             Py.contains b "query" = true ->
             Py.get b "query" PyNone = PyStr query ->
             required_str P b "query" 1 None = Returns query).
  { intros b Hhas Hget.
    apply (@required_str_accepts P b "query" query 1%Z None);
      try assumption. exact I. }
  assert (Hu : forall b,
             Py.contains b "user_id" = true ->
             Py.get b "user_id" PyNone = PyStr user_id ->
             required_str P b "user_id" 1 None = Returns user_id).
  { intros b Hhas Hget.
    apply (@required_str_accepts P b "user_id" user_id 1%Z None);
      try assumption. exact I. }
  split; [| split].
  - unfold POST_memory_search, plain.
    assert (Hv : SearchInput.validate
                   P (PyDict [("query", PyStr query);
                              ("user_id", PyStr user_id)])
                 = Returns (SearchInput.mk query user_id 5)).
    { unfold SearchInput.validate.
      rewrite Hq, Hu by reflexivity. reflexivity. }
    unfold serve, bind, lift. rewrite Hv.
    apply (Hcalled (SearchInput.mk query user_id 5)).
  - intros [Hlo Hhi]. unfold POST_memory_search, limited.
    assert (Hv : SearchInput.validate
                   P (PyDict [("query", PyStr query);
                              ("user_id", PyStr user_id);
                              ("limit", PyInt n)])
                 = Returns (SearchInput.mk query user_id n)).
    { unfold SearchInput.validate.
      rewrite Hq, Hu by reflexivity. simpl and_then.
      unfold bounded_int. simpl. rewrite (as_int_int HP).
      apply Z.leb_le in Hlo. apply Z.leb_le in Hhi. rewrite Hlo, Hhi.
      reflexivity. }
    unfold serve, bind, lift. rewrite Hv.
    apply (Hcalled (SearchInput.mk query user_id n)).
  - intro Hout. unfold POST_memory_search, limited.
    apply refused_body_is_422.
    unfold SearchInput.validate.
    rewrite Hq, Hu by reflexivity. simpl and_then.
    unfold bounded_int. simpl. rewrite (as_int_int HP).
    destruct Hout as [Hlow | Hhigh].
    + apply Z.leb_gt in Hlow. rewrite Hlow. reflexivity.
    + apply Z.leb_gt in Hhigh. rewrite Hhigh.
      rewrite andb_false_r. reflexivity.
Qed.

Lemma batch_validate_of_list :
  forall (P : Pydantic) (items : list PyVal),
    BatchMemoryInput.validate P (PyDict [("memories", PyList items)])
    = if (1 <=? List.length items)%nat && (List.length items <=? 50)%nat
      then and_then (each (MemoryInput.validate P) items)
                    (fun ms => Returns (BatchMemoryInput.mk ms))
      else Raises (body_error "memories").
Proof. reflexivity. Qed.

(** X15: a batch request is validated as a whole before anything is added:
    an empty list or one of more than 50 items is answered 422, and so is a
    list of which one item does not fit, even when the items before it do;
    in each case the library is not called. *)
Theorem batch_is_validated_as_a_whole :
  forall (P : Pydantic) (environ : Environ)
         (memory_instance : option Memory) (history : list Call)
         (items : list PyVal),
    let body := PyDict [("memories", PyList items)] in
    let served :=
      POST_memory_batch_add P environ memory_instance body history in
    ((List.length items = 0 \/ 50 < List.length items)%nat ->
     status_code (fst served) = 422%Z /\ snd served = history)
    /\ (forall before bad after ok field,
           items = before ++ bad :: after ->
           each (MemoryInput.validate P) before = Returns ok ->
           MemoryInput.validate P bad = Raises (body_error field) ->
           status_code (fst served) = 422%Z /\ snd served = history).
Proof.
  intros P environ memory_instance history items body served.
  subst served body. unfold POST_memory_batch_add. split.
  - intro Hsize.
    rewrite (@refused_body_is_422 _ _ environ SuccessResponse_json _
                                  (add_memories_batch memory_instance)
                                  history "memories").
    + split; reflexivity.
    + rewrite batch_validate_of_list.
      destruct Hsize as [Hzero | Hmany].
      * rewrite Hzero. reflexivity.
      * assert (Hleb : (List.length items <=? 50)%nat = false)
          by (apply Nat.leb_gt; exact Hmany).
        rewrite Hleb, andb_false_r. reflexivity.
  - intros before bad after ok field Hitems Hok Hbad.
    assert (Hrefused : exists f,
               BatchMemoryInput.validate P (PyDict [("memories",
                                                     PyList items)])
               = Raises (body_error f)).
    { rewrite batch_validate_of_list.
      destruct ((1 <=? List.length items)%nat
                && (List.length items <=? 50)%nat);
        [| exists "memories"; reflexivity].
      exists field. rewrite Hitems.
      rewrite (each_stops (MemoryInput.validate P) before bad after
                          Hok Hbad).
      reflexivity. }
    destruct Hrefused as [f Hf].
    rewrite (@refused_body_is_422 _ _ environ SuccessResponse_json _
                                  (add_memories_batch memory_instance)
                                  history f Hf).
    split; reflexivity.
Qed.


(** ** The schemas of [app/models/schemas.py] against the endpoint models *)

Lemma required_str_relax :
  forall (P : Pydantic) (b : dict) (name s : string) (lo : Z)
         (hi : option Z),
    required_str P b name lo hi = Returns s ->
    required_str P b name lo None = Returns s.
Proof.
  intros P b name s lo hi. unfold required_str.
  destruct (Py.contains b name); [| intro H; discriminate H].
  destruct (as_str P (Py.get b name PyNone)) as [t |];
    [| intro H; discriminate H].
  destruct (lo <=? Z.of_nat (String.length t))%Z; simpl;
    [| intro H; discriminate H].
  destruct hi as [h |]; [| intro H; exact H].
  destruct (Z.of_nat (String.length t) <=? h)%Z;
    [intro H; exact H | intro H; discriminate H].
Qed.

(** X17: the create schema accepts a body with a string [content] and a
    string [user_id] exactly when the content has 1 to 10000 characters and
    the user id 1 to 100; an accepted body without [metadata] has none. *)
Theorem memory_create_bounds :
  forall (P : Pydantic),
    PydanticLaws P ->
    forall (content user_id : string),
      let body := PyDict [("content", PyStr content);
                          ("user_id", PyStr user_id)] in
      ((exists m, Schemas.MemoryCreate.validate P body = Returns m)
       <-> (1 <= Z.of_nat (String.length content) <= 10000
            /\ 1 <= Z.of_nat (String.length user_id) <= 100)%Z)
      /\ (forall m,
             Schemas.MemoryCreate.validate P body = Returns m ->
             m = Schemas.MemoryCreate.mk content user_id None).
Proof.
  intros P HP content user_id body. subst body.
  unfold Schemas.MemoryCreate.validate, required_str, optional_dict. simpl.
  rewrite !(as_str_str HP).
  destruct (1 <=? Z.of_nat (String.length content))%Z eqn:Hc1;
    destruct (Z.of_nat (String.length content) <=? 10000)%Z eqn:Hc2;
    destruct (1 <=? Z.of_nat (String.length user_id))%Z eqn:Hu1;
    destruct (Z.of_nat (String.length user_id) <=? 100)%Z eqn:Hu2;
    simpl;
    try apply Z.leb_le in Hc1; try apply Z.leb_gt in Hc1;
    try apply Z.leb_le in Hc2; try apply Z.leb_gt in Hc2;
    try apply Z.leb_le in Hu1; try apply Z.leb_gt in Hu1;
    try apply Z.leb_le in Hu2; try apply Z.leb_gt in Hu2;
    (split;
     [ split;
       [ intros [m Hm]; try discriminate Hm; lia
       | intro Hb; try (exfalso; lia); eexists; reflexivity ]
     | intros m Hm; try discriminate Hm; inversion Hm; reflexivity ]).
Qed.

(** X18: every add body the create schema accepts is accepted by the
    endpoint's model too, and reaches the library with the same content,
    user id and metadata (an absent or null metadata as the empty
    mapping). *)
Theorem create_schema_is_stricter :
  forall (P : Pydantic) (body : PyVal) (m : Schemas.MemoryCreate.t),
    Schemas.MemoryCreate.validate P body = Returns m ->
    exists memory,
      MemoryInput.validate P body = Returns memory
      /\ add_call memory
         = CallAdd (Schemas.MemoryCreate.content m)
                   (Schemas.MemoryCreate.user_id m)
                   (metadata_or_empty (Schemas.MemoryCreate.metadata m)).
Proof.
  intros P body m Hschema.
  destruct body as [| x | n | x | s | items | b | cls attrs];
    try discriminate Hschema.
  unfold Schemas.MemoryCreate.validate in Hschema.
  unfold MemoryInput.validate.
  destruct (required_str P b "content" 1 (Some 10000%Z)) as [c | e] eqn:Hc;
    [| discriminate Hschema].
  destruct (required_str P b "user_id" 1 (Some 100%Z)) as [u | e] eqn:Hu;
    [| discriminate Hschema].
  rewrite (required_str_relax _ _ _ _ _ Hc), (required_str_relax _ _ _ _ _ Hu).
  simpl in *. unfold optional_dict in *.
  destruct (Py.contains b "metadata").
  - destruct (as_opt_dict P (Py.get b "metadata" PyNone)) as [md |];
      [| discriminate Hschema].
    simpl in *. inversion Hschema; subst. eexists. split; reflexivity.
  - simpl in *. inversion Hschema; subst. eexists. split; reflexivity.
Qed.

(** X19: every search body the search schema accepts is accepted by the
    endpoint's model with the same query and user id; a given [limit] is
    the same in both, but without a [limit] the schema's default is 10 while
    the endpoint searches with 5. *)
Theorem search_schema_default_differs :
  forall (P : Pydantic) (b : dict) (m : Schemas.MemorySearch.t),
    Schemas.MemorySearch.validate P (PyDict b) = Returns m ->
    exists search,
      SearchInput.validate P (PyDict b) = Returns search
      /\ SearchInput.query search = Schemas.MemorySearch.query m
      /\ SearchInput.user_id search = Schemas.MemorySearch.user_id m
      /\ (Py.contains b "limit" = true ->
          SearchInput.limit search = Schemas.MemorySearch.limit m)
      /\ (Py.contains b "limit" = false ->
          Schemas.MemorySearch.limit m = 10%Z
          /\ SearchInput.limit search = 5%Z).
Proof.
  intros P b m Hschema.
  unfold Schemas.MemorySearch.validate in Hschema.
  unfold SearchInput.validate.
  destruct (required_str P b "query" 1 (Some 500%Z)) as [q | e] eqn:Hq;
    [| discriminate Hschema].
  destruct (required_str P b "user_id" 1 (Some 100%Z)) as [u | e] eqn:Hu;
    [| discriminate Hschema].
  rewrite (required_str_relax _ _ _ _ _ Hq), (required_str_relax _ _ _ _ _ Hu).
  simpl in *. unfold bounded_int in *.
  destruct (Py.contains b "limit").
  - destruct (as_int P (Py.get b "limit" PyNone)) as [n |];
      [| discriminate Hschema].
    destruct ((1 <=? n)%Z && (n <=? 100)%Z); [| discriminate Hschema].
    simpl in *.
    destruct (optional_dict P b "filters" None) as [f | e];
      [| discriminate Hschema].
    simpl in *. inversion Hschema; subst. eexists.
    repeat split; try reflexivity; congruence.
  - simpl in *.
    destruct (optional_dict P b "filters" None) as [f | e];
      [| discriminate Hschema].
    simpl in *. inversion Hschema; subst. eexists.
    repeat split; try reflexivity; congruence.
Qed.

(** ** Settings: the case of variable names *)

Lemma env_lookup_ignores_case :
  forall (vars vars' : Environ) (field : string),
    map (fun kv => (lower (fst kv), snd kv)) vars
    = map (fun kv => (lower (fst kv), snd kv)) vars' ->
    Settings.env_lookup vars field = Settings.env_lookup vars' field.
Proof.
  induction vars as [| [k v] rest IH]; intros [| [k' v'] rest'] field Hsame;
    simpl in Hsame; try discriminate Hsame.
  - reflexivity.
  - inversion Hsame as [[Hk Hv Hrest]]. simpl.
    rewrite (IH rest' field Hrest), Hk. reflexivity.
Qed.

Lemma extra_inputs_ignores_case :
  forall (file file' : Environ),
    map (fun kv => (lower (fst kv), snd kv)) file
    = map (fun kv => (lower (fst kv), snd kv)) file' ->
    Settings.extra_inputs file = Settings.extra_inputs file'.
Proof.
  induction file as [| [k v] rest IH]; intros [| [k' v'] rest'] Hsame;
    simpl in Hsame; try discriminate Hsame.
  - reflexivity.
  - inversion Hsame as [[Hk Hv Hrest]]. unfold Settings.extra_inputs in *.
    cbn [existsb fst]. rewrite Hk, (IH rest' Hrest). reflexivity.
Qed.

(** X20: the settings loader does not look at the case of variable names:
    two environments and [.env] files that set the same values under names
    that differ in case only give the same settings, or the same failure. *)
Theorem settings_ignore_case_of_names :
  forall (C : Settings.Coercions) (src src' : Settings.Sources),
    map (fun kv => (lower (fst kv), snd kv)) (Settings.os_environ src)
    = map (fun kv => (lower (fst kv), snd kv)) (Settings.os_environ src') ->
    map (fun kv => (lower (fst kv), snd kv)) (Settings.dotenv src)
    = map (fun kv => (lower (fst kv), snd kv)) (Settings.dotenv src') ->
    Settings.load C src = Settings.load C src'.
Proof.
  intros C src src' Henv Hfile.
  assert (Hread : forall field,
             Settings.read src field = Settings.read src' field).
  { intro field. unfold Settings.read.
    rewrite (env_lookup_ignores_case _ _ field Henv),
      (env_lookup_ignores_case _ _ field Hfile).
    reflexivity. }
  unfold Settings.load.
  rewrite (extra_inputs_ignores_case _ _ Hfile), !Hread. reflexivity.
Qed.

(** ** The further theorems at concrete inputs *)



(** X4 at an environment whose QDRANT_API_KEY is empty. *)
Lemma startup_builds_witness :
  Lifecycle.startup example_up [("QDRANT_API_KEY", EmptyString)]
  = (Returns tt, Some example_memory)
  /\ Lifecycle.api_key
       (Lifecycle.client
          (Lifecycle.config [("QDRANT_API_KEY", EmptyString)]))
     = None.
Proof.
  pose proof (@startup_builds_configured_instance
                example_up [("QDRANT_API_KEY", EmptyString)] example_memory
                eq_refl eq_refl eq_refl) as H.
  cbv zeta in H. destruct H as (Hstart & _ & _ & Hkey & _).
  split; [exact Hstart |]. apply Hkey. right. reflexivity.
Defined.

(** X6 at a library that raises, with DEBUG set to [false]. *)
Lemma library_errors_witness :
  serve [("DEBUG", "false")] SuccessResponse_json
        (add_memory (Some example_failing)
                    (MemoryInput.mk "likes tea" "u1" None))
        []
  = (failed_response "Failed to add memory: "
                     (Exception "RuntimeError" "store unreachable"),
     [CallAdd "likes tea" "u1" []]).
Proof.
  destruct (library_errors_reach_the_client
              pydantic_strict [("DEBUG", "false")] example_failing []
              (Exception "RuntimeError" "store unreachable"))
    as (Hadd & _).
  apply (Hadd (MemoryInput.mk "likes tea" "u1" None)). reflexivity.
Defined.

(** X7 at the example library, which answers in the mapping shape. *)
Lemma get_memories_witness :
  get_memories pydantic_strict (Some example_memory) "u1" 100 []
  = (Returns (MemoryListResponse.mk
                true
                [[("id", PyStr "m1")]; [("memory", PyStr "no id")];
                 [("id", PyStr "m2")]]
                3),
     [CallGetAll "u1" (Some 100%Z)]).
Proof.
  apply (@get_memories_reads_both_shapes
           pydantic_strict example_memory "u1" 100 []
           (PyDict [("results",
                     PyList [PyDict [("id", PyStr "m1")];
                             PyDict [("memory", PyStr "no id")];
                             PyDict [("id", PyStr "m2")]])])
           [PyDict [("id", PyStr "m1")];
            PyDict [("memory", PyStr "no id")];
            PyDict [("id", PyStr "m2")]]).
  - reflexivity.
  - right. eexists. repeat split; reflexivity.
  - reflexivity.
Defined.

(** X8 at a library whose [get_all] returns [None]. *)
Lemma get_memories_none_witness :
  get_memories pydantic_strict (Some (fun _ _ => Returns PyNone)) "u1" 100 []
  = (Returns (MemoryListResponse.mk true [] 0),
     [CallGetAll "u1" (Some 100%Z)]).
Proof.
  pose proof (@get_memories_other_shapes
                pydantic_strict (fun _ _ => Returns PyNone) "u1" 100 []
                PyNone eq_refl) as H.
  cbv zeta in H. destruct H as [Hempty _].
  apply Hempty.
  - intros records Hr. discriminate Hr.
  - intros d Hd. discriminate Hd.
  - reflexivity.
Defined.

(** X9 at a library whose second delete raises: the third id is not
    attempted. *)
Lemma failed_delete_witness :
  DELETE_memory_user [] (Some example_delete_fails) "u1" []
  = (failed_response "Failed to delete memories: "
                     (Exception "RuntimeError" "locked"),
     [CallGetAll "u1" None; CallDelete (PyStr "m1");
      CallDelete (PyStr "m2")]).
Proof.
  apply (@failed_delete_stops_the_loop
           [] example_delete_fails "u1" []
           (PyList [PyDict [("id", PyStr "m1")];
                    PyDict [("id", PyStr "m2")];
                    PyDict [("id", PyStr "m3")]])
           [PyDict [("id", PyStr "m1")];
            PyDict [("id", PyStr "m2")];
            PyDict [("id", PyStr "m3")]]
           [PyStr "m1"] (PyStr "m2") [PyStr "m3"]
           (Exception "RuntimeError" "locked")).
  - reflexivity.
  - reflexivity.
  - reflexivity.
  - intros k Hk. destruct k as [| k].
    + exists PyNone. reflexivity.
    + simpl in Hk. lia.
  - reflexivity.
Defined.

(** X10 at a library whose [search] answers with a mapping of two keys. *)
Lemma search_mapping_witness :
  search_memory pydantic_strict (Some example_mapping_shape)
                (SearchInput.mk "tea" "u1" 5) []
  = (Returns (SearchResponse.mk
                true [text_item "results"; text_item "relations"] 2),
     [CallSearch "tea" "u1" 5]).
Proof.
  pose proof (@search_results_of_other_shapes
                pydantic_strict pydantic_strict_laws example_mapping_shape
                (SearchInput.mk "tea" "u1" 5) []
                (PyDict [("results",
                          PyList [PyDict [("memory", PyStr "tea")]]);
                         ("relations", PyList [])])
                eq_refl) as H.
  cbv zeta in H. destruct H as [Hkeys _].
  apply (Hkeys [("results", PyList [PyDict [("memory", PyStr "tea")]]);
                ("relations", PyList [])] eq_refl).
  discriminate.
Defined.

(** X11 at a list whose second entry has a null memory text. *)
Lemma search_unfit_witness :
  fst (search_memory
         pydantic_strict
         (Some (fun _ _ =>
                  Returns (PyList [PyDict [("memory", PyStr "tea")];
                                   PyDict [("memory", PyNone)]])))
         (SearchInput.mk "tea" "u1" 5) [])
  = Raises (HTTPException
              500
              "Failed to search memory: validation error for SearchResult").
Proof.
  exact (f_equal
           fst
           (@search_fails_on_one_unfit_entry
              pydantic_strict
              (fun _ _ =>
                 Returns (PyList [PyDict [("memory", PyStr "tea")];
                                  PyDict [("memory", PyNone)]]))
              (SearchInput.mk "tea" "u1" 5) []
              [PyDict [("memory", PyStr "tea")]]
              (PyDict [("memory", PyNone)]) []
              [SearchResult.mk "tea" float_0_0 None]
              (Exception "ValidationError"
                         "validation error for SearchResult")
              eq_refl eq_refl eq_refl)).
Defined.


(** X13 at an empty content, with the adapter unset: 422, not 503. *)
Lemma add_refuses_empty_witness :
  status_code
    (fst (POST_memory_add pydantic_strict [] None
                          (PyDict [("content", PyStr EmptyString);
                                   ("user_id", PyStr "u1")])
                          []))
  = 422%Z.
Proof.
  refine (proj1 (@add_refuses_missing_or_empty_fields
                   pydantic_strict pydantic_strict_laws [] None []
                   (PyDict [("content", PyStr EmptyString);
                            ("user_id", PyStr "u1")])
                   _)).
  intros b Hb. inversion Hb; subst b. right. left. reflexivity.
Defined.

(** X14 at limit 0. *)
Lemma search_limit_witness :
  POST_memory_search pydantic_strict [] (Some example_memory)
                     (PyDict [("query", PyStr "tea");
                              ("user_id", PyStr "u1");
                              ("limit", PyInt 0)])
                     []
  = (unprocessable "limit", []).
Proof.
  pose proof (@search_limit_is_validated
                pydantic_strict pydantic_strict_laws [] example_memory []
                "tea" "u1" 0%Z) as H.
  cbv zeta in H. destruct H as (_ & _ & Hout).
  - vm_compute. discriminate.
  - vm_compute. discriminate.
  - apply Hout. left. lia.
Defined.

(** X15 at a batch whose second item has an empty content. *)
Lemma batch_validation_witness :
  let served :=
    POST_memory_batch_add
      pydantic_strict [] (Some example_memory)
      (PyDict [("memories",
                PyList [PyDict [("content", PyStr "likes tea");
                                ("user_id", PyStr "u1")];
                        PyDict [("content", PyStr EmptyString);
                                ("user_id", PyStr "u1")]])])
      [] in
  status_code (fst served) = 422%Z /\ snd served = [].
Proof.
  cbv zeta.
  pose proof (batch_is_validated_as_a_whole
                pydantic_strict [] (Some example_memory) []
                [PyDict [("content", PyStr "likes tea");
                         ("user_id", PyStr "u1")];
                 PyDict [("content", PyStr EmptyString);
                         ("user_id", PyStr "u1")]]) as H.
  cbv zeta in H. destruct H as [_ Hitem].
  apply (Hitem [PyDict [("content", PyStr "likes tea");
                        ("user_id", PyStr "u1")]]
               (PyDict [("content", PyStr EmptyString);
                        ("user_id", PyStr "u1")])
               []
               [MemoryInput.mk "likes tea" "u1" (Some [])]
               "content");
    reflexivity.
Defined.


(** X17 at a short content and user id. *)
Lemma memory_create_witness :
  exists m,
    Schemas.MemoryCreate.validate
      pydantic_strict
      (PyDict [("content", PyStr "likes tea"); ("user_id", PyStr "u1")])
    = Returns m.
Proof.
  pose proof (@memory_create_bounds pydantic_strict pydantic_strict_laws
                                    "likes tea" "u1") as H.
  cbv zeta in H. destruct H as [[_ Haccept] _].
  apply Haccept. vm_compute. repeat split; discriminate.
Defined.

(** X18 at a body with metadata. *)
Lemma create_schema_witness :
  exists memory,
    MemoryInput.validate
      pydantic_strict
      (PyDict [("content", PyStr "likes tea"); ("user_id", PyStr "u1");
               ("metadata", PyDict [("source", PyStr "chat")])])
    = Returns memory
    /\ add_call memory
       = CallAdd "likes tea" "u1" [("source", PyStr "chat")].
Proof.
  exact (@create_schema_is_stricter
           pydantic_strict
           (PyDict [("content", PyStr "likes tea"); ("user_id", PyStr "u1");
                    ("metadata", PyDict [("source", PyStr "chat")])])
           (Schemas.MemoryCreate.mk "likes tea" "u1"
                                    (Some [("source", PyStr "chat")]))
           eq_refl).
Defined.

(** X19 at a body without a limit. *)
Lemma search_schema_witness :
  exists search,
    SearchInput.validate
      pydantic_strict
      (PyDict [("query", PyStr "tea"); ("user_id", PyStr "u1")])
    = Returns search
    /\ SearchInput.limit search = 5%Z.
Proof.
  destruct (@search_schema_default_differs
              pydantic_strict
              [("query", PyStr "tea"); ("user_id", PyStr "u1")]
              (Schemas.MemorySearch.mk "tea" "u1" 10 None) eq_refl)
    as (search & Hvalid & _ & _ & _ & Hdefault).
  exists search. split; [exact Hvalid |].
  apply Hdefault. reflexivity.
Defined.

(** X20 at the same variables in upper and in lower case. *)
Lemma settings_case_witness :
  Settings.load Settings.plain_coercions
                {| Settings.os_environ := [("OPENAI_API_KEY", "sk-test");
                                           ("QDRANT_URL", "http://q:6333")];
                   Settings.dotenv := [] |}
  = Settings.load Settings.plain_coercions
                  {| Settings.os_environ := [("openai_api_key", "sk-test");
                                             ("Qdrant_Url", "http://q:6333")];
                     Settings.dotenv := [] |}.
Proof.
  apply settings_ignore_case_of_names; reflexivity.
Defined.
